(** * The rule registry of http-request-mock ([src/mocker/mocker.ts])

    A shallow embedding of class [Mocker]: the ordered registry of mock items,
    the global switches, the registration methods and [matchMockItem].

    Conventions of the embedding.
    - A JavaScript object used as an ordered map ([mockConfigData]) is an
      association list in the order a [for ... in] loop visits its
      properties: the names that are array indices first, in ascending
      numeric order, then the other names in creation order.
    - A statement that may raise is a value of [Completion]; [try]/[catch] is
      the combinator [try_catch].
    - [Mocker.instance] and the objects behind handles live in a [World]. *)

From Stdlib Require Import ZArith String Ascii List Lia Bool.
From stdpp Require Import base list strings.
Import ListNotations.
Open Scope string_scope.

(** ** JavaScript values as far as the registry inspects them *)

Inductive JsError : Type :=
| TypeError (msg : string)
| Thrown (msg : string).

Inductive Completion (A : Type) : Type :=
| Normal (a : A)
| Throw (e : JsError).
Arguments Normal {A} a.
Arguments Throw {A} e.

Definition bind {A B : Type} (c : Completion A) (k : A -> Completion B) : Completion B :=
  match c with
  | Normal a => k a
  | Throw e => Throw e
  end.

(** [err.message] *)
Definition message (e : JsError) : string :=
  match e with
  | TypeError msg => msg
  | Thrown msg => msg
  end.

Definition try_catch {A : Type} (body : Completion A) (handler : JsError -> Completion A) : Completion A :=
  match body with
  | Normal a => Normal a
  | Throw e => handler e
  end.

Declare Scope js_scope.
Delimit Scope js_scope with js.
Notation "'let*' x ':=' c 'in' k" := (bind c (fun x => k))
  (at level 10, x name, c at level 100, k at level 200) : js_scope.
Open Scope js_scope.

(** A [RegExp] object: its source text and flags (what [String(re)] prints)
    and its [test] method.  [test] is taken to be a function of the subject
    string (no [g]/[y] flag, whose [lastIndex] would make it stateful); it may
    raise, as an object that is [instanceof RegExp] can override [exec]. *)
Record RegExp : Type := {
  source : string;
  flags : string;
  test : string -> Completion bool
}.

(** A loosely typed field value. [JSymbol] stands for the values whose string
    coercion raises a [TypeError]. *)
Inductive JsValue : Type :=
| JUndefined
| JString (s : string)
| JRegExp (r : RegExp)
| JSymbol (description : string).

(** [String(v)], the coercion done by a template literal and by the argument
    of [String.prototype.indexOf]. *)
Definition ToString (v : JsValue) : Completion string :=
  match v with
  | JUndefined => Normal "undefined"
  | JString s => Normal s
  | JRegExp r => Normal ("/" ++ source r ++ "/" ++ flags r)
  | JSymbol _ => Throw (TypeError "Cannot convert a Symbol value to a string")
  end.

(** [v === s] for a string literal [s]. *)
Definition strict_eq_str (v : JsValue) (s : string) : bool :=
  match v with
  | JString t => String.eqb t s
  | _ => false
  end.

(** A number used as a use count: an integer or [Infinity]. *)
Inductive Num : Type :=
| Finite (z : Z)
| Infinity.

(** [n <= 0] *)
Definition num_le_zero (n : Num) : bool :=
  match n with
  | Finite z => (z <=? 0)%Z
  | Infinity => false
  end.

Definition lower_ascii (c : ascii) : ascii :=
  let n := nat_of_ascii c in
  if (65 <=? n)%nat && (n <=? 90)%nat then ascii_of_nat (n + 32) else c.

(** [s.toLowerCase()] on the ASCII letters, the alphabet of method names. *)
Fixpoint toLowerCase (s : string) : string :=
  match s with
  | EmptyString => EmptyString
  | String c t => String (lower_ascii c) (toLowerCase t)
  end.

(** [hay.indexOf(needle)], [-1] when [needle] does not occur. *)
Definition indexOf (hay needle : string) : Z :=
  match String.index 0 needle hay with
  | Some n => Z.of_nat n
  | None => (-1)%Z
  end.

(** [a || b] on an optional string: [undefined] and the empty string are falsy. *)
Definition or_default (a : option string) (b : string) : string :=
  match a with
  | Some s => if String.eqb s "" then b else s
  | None => b
  end.

(** ** Mock items *)

Definition Header : Type := list (string * string).

Module MockItem.

(** The fields of [MockItem] that [mocker.ts] reads or writes.  Every field
    can be [undefined]: the methods build items from object literals that
    leave fields out. *)
Record t : Type := {
  key : option string;
  url : JsValue;
  method : JsValue;
  body : JsValue;
  delay : option Z;
  status : option Z;
  header : option Header;
  times : option Num;
  disable : JsValue
}.

End MockItem.

(** Modelled from the spec: the methods a rule can carry, which
    [src/mocker/mock-item.ts] (not among the sources) validates: one of
    get/post/put/patch/delete/head or the wildcard any. *)
Definition methods : list string :=
  ["get"; "post"; "put"; "patch"; "delete"; "head"; "any"].

(** Modelled from the spec: the method of a rule specification, compared
    without case; part of the missing constructor of [MockItem]. *)
Definition normalize_method (m : JsValue) : option string :=
  match m with
  | JString s =>
      if existsb (String.eqb (toLowerCase s)) methods then Some (toLowerCase s) else None
  | _ => None
  end.

(** Modelled from the spec: the url matcher of a rule specification, a string
    or a pattern, as the text the key is computed from; part of the missing
    constructor of [MockItem]. *)
Definition url_text (u : JsValue) : option string :=
  match u with
  | JString s => Some s
  | JRegExp r => Some ("/" ++ source r ++ "/" ++ flags r)
  | _ => None
  end.

(** Modelled from the spec: the item the missing constructor of [MockItem]
    leaves when the input is rejected; it has no key. *)
Definition rejected : MockItem.t :=
  {| MockItem.key := None; MockItem.url := JUndefined; MockItem.method := JUndefined;
     MockItem.body := JUndefined; MockItem.delay := None; MockItem.status := None;
     MockItem.header := None; MockItem.times := None; MockItem.disable := JUndefined |}.

(** Modelled from the spec: the constructor of class [MockItem]
    ([src/mocker/mock-item.ts], which is not among the sources).  A rule is
    created when registration validates and normalises its input; input with
    no derivable key is rejected.  The url matcher is a string or a pattern,
    the method one of get/post/put/patch/delete/head/any compared without
    case, the key is computed from url matcher and method, and the options
    left out take their defaults: delay 0, status 200, times unbounded,
    header empty. *)
Definition new_MockItem (info : MockItem.t) : MockItem.t :=
  match url_text (MockItem.url info), normalize_method (MockItem.method info) with
  | Some u, Some m =>
      {| MockItem.key := Some (u ++ "-" ++ m);
         MockItem.url := MockItem.url info;
         MockItem.method := JString m;
         MockItem.body := MockItem.body info;
         MockItem.delay := Some (default 0%Z (MockItem.delay info));
         MockItem.status := Some (default 200%Z (MockItem.status info));
         MockItem.header := Some (default [] (MockItem.header info));
         MockItem.times := Some (default Infinity (MockItem.times info));
         MockItem.disable :=
           JString (if strict_eq_str (MockItem.disable info) "yes" then "yes" else "no") |}
  | _, _ => rejected
  end.

(** [opts: MockItemExt] of the per-method helpers. *)
Record MockItemExt : Type := {
  ext_delay : option Z;
  ext_status : option Z;
  ext_times : option Num;
  ext_header : option Header
}.

(** The value of a decimal digit. *)
Definition digit (c : ascii) : option N :=
  let n := N_of_ascii c in
  if (48 <=? n)%N && (n <=? 57)%N then Some (n - 48)%N else None.

(** The number written by a run of decimal digits, after [acc]. *)
Fixpoint digits_value (s : string) (acc : N) : option N :=
  match s with
  | EmptyString => Some acc
  | String c t =>
      match digit c with
      | Some d => digits_value t (10 * acc + d)%N
      | None => None
      end
  end.

(** A property name that is an array index: the canonical decimal text,
    without leading zero, of an integer from 0 to 4294967294. *)
Definition array_index (k : string) : option N :=
  match k with
  | EmptyString => None
  | String c t =>
      if Ascii.eqb c "0"%char && negb (String.eqb t "") then None
      else
        match digits_value k 0 with
        | Some n => if (n <=? 4294967294)%N then Some n else None
        | None => None
        end
  end.

(** A new property [k] is enumerated before the property [k']: [k] is an
    array index and [k'] is none or a larger one. *)
Definition comes_before (k k' : string) : bool :=
  match array_index k with
  | Some n =>
      match array_index k' with
      | Some n' => (n <? n')%N
      | None => true
      end
  | None => false
  end.

(** [obj[key] = val] on an ordered object, in the order [for ... in] visits
    it: an existing property keeps its place and takes the new value; a new
    property that is an array index goes before the first property it comes
    before; any other new property goes last. *)
Fixpoint set_property (o : list (string * MockItem.t)) (k : string) (v : MockItem.t)
  : list (string * MockItem.t) :=
  match o with
  | [] => [(k, v)]
  | (k', v') :: o' =>
      if String.eqb k' k then (k, v) :: o'
      else if comes_before k k' then (k, v) :: (k', v') :: o'
      else (k', v') :: set_property o' k v
  end.

(** [obj[key]] *)
Fixpoint get_property (o : list (string * MockItem.t)) (k : string) : option MockItem.t :=
  match o with
  | [] => None
  | (k', v') :: o' => if String.eqb k' k then Some v' else get_property o' k
  end.

(** How one pass through a loop body ends. *)
Inductive Flow : Type :=
| Continue
| Return (info : MockItem.t).

(** [for (let key in o) { body }  return null] *)
Fixpoint for_in (o : list (string * MockItem.t)) (body : MockItem.t -> Completion Flow)
  : Completion (option MockItem.t) :=
  match o with
  | [] => Normal None
  | (_, info) :: o' =>
      match body info with
      | Throw e => Throw e
      | Normal (Return r) => Normal (Some r)
      | Normal Continue => for_in o' body
      end
  end.

(** ** The registry object *)

Module Mocker.

Record t : Type := {
  mockConfigData : list (string * MockItem.t);
  disabled : bool;
  log : bool
}.

Definition addMockItem (this : t) (k : string) (val : MockItem.t) : t :=
  {| mockConfigData := set_property (mockConfigData this) k val;
     disabled := disabled this;
     log := log this |}.

(** [enable], [disable], [enableLog], [disableLog]: the assignment each makes
    to the object.  The call of [groupLog] in [enable] and [disable] writes to
    the host console only: it reads [log], assigns no field and has no result,
    and the console is not part of the state modelled here. *)
Definition enable (this : t) : t :=
  {| mockConfigData := mockConfigData this; disabled := false; log := log this |}.

Definition disable (this : t) : t :=
  {| mockConfigData := mockConfigData this; disabled := true; log := log this |}.

Definition disableLog (this : t) : t :=
  {| mockConfigData := mockConfigData this; disabled := disabled this; log := false |}.

Definition enableLog (this : t) : t :=
  {| mockConfigData := mockConfigData this; disabled := disabled this; log := true |}.

(** ** matchMockItem *)

(** The statements inside [try { ... }] for one registry entry. *)
Definition loop_body (info : MockItem.t) (reqUrl requestMethod : string) : Completion Flow :=
  if strict_eq_str (MockItem.disable info) "yes"
     || match MockItem.times info with
        | Some n => num_le_zero n
        | None => false
        end
  then Normal Continue
  else
    let* m := ToString (MockItem.method info) in
    let method := toLowerCase m in
    if negb (String.eqb method "any")
       && negb (String.eqb method (toLowerCase requestMethod))
    then Normal Continue
    else
      let* tested :=
        match MockItem.url info with
        | JRegExp r => test r reqUrl
        | _ => Normal false
        end in
      if tested then Normal (Return info)
      else
        let* u := ToString (MockItem.url info) in
        if negb (indexOf reqUrl u =? -1)%Z then Normal (Return info)
        else Normal Continue.

Definition matchMockItem (this : t) (reqUrl : string) (reqMethod : option string)
  : Completion (option MockItem.t) :=
  if disabled this then Normal None
  else
    let requestMethod := or_default reqMethod "get" in
    for_in (mockConfigData this)
      (fun info =>
         try_catch (loop_body info reqUrl requestMethod) (fun _ => Normal Continue)).

(** ** Registration *)

Section Registration.

(** [new MockItem(info)]: class [MockItem] is imported from [./mock-item]; the
    methods below only rely on it returning an item, whose [key] is left
    [undefined] when none can be derived. *)
Variable construct : MockItem.t -> MockItem.t.

(** [!mockItem.key]: [undefined] and the empty string are falsy. *)
Definition no_key (item : MockItem.t) : bool :=
  match MockItem.key item with
  | Some k => String.eqb k ""
  | None => true
  end.

(** [mock] returns [false] ([None]) or the created item, and the registry
    after the call. *)
Definition mock (this : t) (mockItemInfo : MockItem.t) : t * option MockItem.t :=
  let mockItem := construct mockItemInfo in
  if no_key mockItem then (this, None)
  else (addMockItem this (default "" (MockItem.key mockItem)) mockItem, Some mockItem).

Definition setMockData (this : t) (mockConfigData : list (string * MockItem.t)) : t :=
  fold_left (fun this' entry => fst (mock this' (snd entry))) mockConfigData this.

Definition reset (this : t) : t :=
  setMockData this [].

(** The default value of the parameter [opts]. *)
Definition default_opts : MockItemExt :=
  {| ext_delay := Some 0%Z;
     ext_status := Some 200%Z;
     ext_times := Some Infinity;
     ext_header := Some [] |}.

(** A parameter with a default takes it when the argument is left out. *)
Definition param_or_default (opts : option MockItemExt) : MockItemExt :=
  match opts with
  | Some o => o
  | None => default_opts
  end.

Definition get (this : t) (url body : JsValue) (opts : option MockItemExt) : t :=
  let opts := param_or_default opts in
  let '(delay, status, times, header) :=
    (ext_delay opts, ext_status opts, ext_times opts, ext_header opts) in
  fst (mock this
         {| MockItem.key := None; MockItem.url := url; MockItem.method := JString "get";
            MockItem.body := body; MockItem.delay := delay; MockItem.status := status;
            MockItem.header := header; MockItem.times := times;
            MockItem.disable := JUndefined |}).

Definition post (this : t) (url body : JsValue) (opts : option MockItemExt) : t :=
  let opts := param_or_default opts in
  let '(delay, status, times, header) :=
    (ext_delay opts, ext_status opts, ext_times opts, ext_header opts) in
  fst (mock this
         {| MockItem.key := None; MockItem.url := url; MockItem.method := JString "post";
            MockItem.body := body; MockItem.delay := delay; MockItem.status := status;
            MockItem.header := header; MockItem.times := times;
            MockItem.disable := JUndefined |}).

Definition put (this : t) (url body : JsValue) (opts : option MockItemExt) : t :=
  let opts := param_or_default opts in
  let '(delay, status, times, header) :=
    (ext_delay opts, ext_status opts, ext_times opts, ext_header opts) in
  fst (mock this
         {| MockItem.key := None; MockItem.url := url; MockItem.method := JString "put";
            MockItem.body := body; MockItem.delay := delay; MockItem.status := status;
            MockItem.header := header; MockItem.times := times;
            MockItem.disable := JUndefined |}).

Definition patch (this : t) (url body : JsValue) (opts : option MockItemExt) : t :=
  let opts := param_or_default opts in
  let '(delay, status, times, header) :=
    (ext_delay opts, ext_status opts, ext_times opts, ext_header opts) in
  fst (mock this
         {| MockItem.key := None; MockItem.url := url; MockItem.method := JString "patch";
            MockItem.body := body; MockItem.delay := delay; MockItem.status := status;
            MockItem.header := header; MockItem.times := times;
            MockItem.disable := JUndefined |}).

Definition delete (this : t) (url body : JsValue) (opts : option MockItemExt) : t :=
  let opts := param_or_default opts in
  let '(delay, status, times, header) :=
    (ext_delay opts, ext_status opts, ext_times opts, ext_header opts) in
  fst (mock this
         {| MockItem.key := None; MockItem.url := url; MockItem.method := JString "delete";
            MockItem.body := body; MockItem.delay := delay; MockItem.status := status;
            MockItem.header := header; MockItem.times := times;
            MockItem.disable := JUndefined |}).

Definition head (this : t) (url : JsValue) (opts : option MockItemExt) : t :=
  let opts := param_or_default opts in
  let '(delay, status, times, header) :=
    (ext_delay opts, ext_status opts, ext_times opts, ext_header opts) in
  fst (mock this
         {| MockItem.key := None; MockItem.url := url; MockItem.method := JString "head";
            MockItem.body := JString ""; MockItem.delay := delay; MockItem.status := status;
            MockItem.header := header; MockItem.times := times;
            MockItem.disable := JUndefined |}).

Definition any (this : t) (url body : JsValue) (opts : option MockItemExt) : t :=
  let opts := param_or_default opts in
  let '(delay, status, times, header) :=
    (ext_delay opts, ext_status opts, ext_times opts, ext_header opts) in
  fst (mock this
         {| MockItem.key := None; MockItem.url := url; MockItem.method := JString "any";
            MockItem.body := body; MockItem.delay := delay; MockItem.status := status;
            MockItem.header := header; MockItem.times := times;
            MockItem.disable := JUndefined |}).

End Registration.

(** ** Construction: the static [instance] and the objects behind handles *)

(** A handle is the address of a [Mocker] object. *)
Definition handle : Type := nat.

Record World : Type := {
  instance : option handle;
  heap : list t;
  isNodejs : bool
}.

(** The object the constructor body initialises: the field initialisers give
    [disabled = false] and [log = false], then [log = !isNodejs()] and
    [mockConfigData = {}]. *)
Definition fresh (w : World) : t :=
  {| mockConfigData := []; disabled := false; log := negb (isNodejs w) |}.

(** [new Mocker()]: the handle the expression evaluates to, and the world
    after it.  When [Mocker.instance] is set, the constructor returns it and
    the object under construction is dropped. *)
Definition new (w : World) : handle * World :=
  match instance w with
  | Some h => (h, w)
  | None =>
      let h := length (heap w) in
      (h, {| instance := Some h; heap := heap w ++ [fresh w]; isNodejs := isNodejs w |})
  end.

Definition getInstance (w : World) : handle * World :=
  new w.

(** A method that returns [this], called on the object behind a handle. *)
Definition call (m : t -> t) (h : handle) (w : World) : World :=
  {| instance := instance w; heap := alter m h (heap w); isNodejs := isNodejs w |}.

(** The state of the object behind a handle. *)
Definition deref (w : World) (h : handle) : option t :=
  heap w !! h.

End Mocker.

(** ** Notions used to state the properties *)

(** The registry with other rules and the same switches. *)
Definition with_rules (this : Mocker.t) (rules : list (string * MockItem.t)) : Mocker.t :=
  {| Mocker.mockConfigData := rules;
     Mocker.disabled := Mocker.disabled this;
     Mocker.log := Mocker.log this |}.

(** The rule is passed over by the first test of the loop body: its
    [disable] flag is set (the flag is carried as the string [yes]), or its
    [times] is defined and not positive. *)
Definition skipped (info : MockItem.t) : bool :=
  strict_eq_str (MockItem.disable info) "yes"
  || match MockItem.times info with
     | Some n => num_le_zero n
     | None => false
     end.

(** The rule's method, lower-cased, is [any] or the request's method. *)
Definition method_compatible (info : MockItem.t) (reqMethod : option string) : Prop :=
  exists m, ToString (MockItem.method info) = Normal m /\
    (toLowerCase m = "any" \/ toLowerCase m = toLowerCase (or_default reqMethod "get")).

(** The rule's criteria match the request: evaluating the loop body on the
    rule returns it. *)
Definition criteria_match (info : MockItem.t) (reqUrl : string) (reqMethod : option string) : Prop :=
  Mocker.loop_body info reqUrl (or_default reqMethod "get") = Normal (Return info).

(** The loop body under its [try]/[catch], as [matchMockItem] runs it. *)
Definition guarded (reqUrl rm : string) (info : MockItem.t) : Completion Flow :=
  try_catch (Mocker.loop_body info reqUrl rm) (fun _ => Normal Continue).

(** [needle] occurs in [hay]. *)
Definition substring_of (needle hay : string) : Prop :=
  exists pre post, hay = pre ++ needle ++ post.

(** ** Sample rules and registries *)

Definition rule (u : JsValue) (m : string) (st : Z) : MockItem.t :=
  new_MockItem
    {| MockItem.key := None; MockItem.url := u; MockItem.method := JString m;
       MockItem.body := JString "ok"; MockItem.delay := None; MockItem.status := Some st;
       MockItem.header := None; MockItem.times := None; MockItem.disable := JUndefined |}.

(** The pattern [/api$/]: the subject ends in [api]. *)
Definition re_api : RegExp :=
  {| source := "api$"; flags := "";
     test := fun s => Normal (String.eqb (substring (String.length s - 3) 3 s) "api") |}.

(** A pattern object whose [test] raises. *)
Definition re_broken : RegExp :=
  {| source := "x"; flags := ""; test := fun _ => Throw (Thrown "exec") |}.

Definition registry (rules : list MockItem.t) : Mocker.t :=
  {| Mocker.mockConfigData := map (fun r => (default "" (MockItem.key r), r)) rules;
     Mocker.disabled := false;
     Mocker.log := false |}.

Definition empty_world : Mocker.World :=
  {| Mocker.instance := None; Mocker.heap := []; Mocker.isNodejs := true |}.

(** The per-method helpers by name. *)
Inductive Helper : Type :=
| Get | Post | Put | Patch | Delete | Head | Any.

Definition helper_method (h : Helper) : string :=
  match h with
  | Get => "get" | Post => "post" | Put => "put" | Patch => "patch"
  | Delete => "delete" | Head => "head" | Any => "any"
  end.

(** A call of a helper on a registry whose items are built by [new_MockItem];
    [head] takes no body. *)
Definition call_helper (h : Helper) (this : Mocker.t) (url body : JsValue)
    (opts : option MockItemExt) : Mocker.t :=
  match h with
  | Get => Mocker.get new_MockItem this url body opts
  | Post => Mocker.post new_MockItem this url body opts
  | Put => Mocker.put new_MockItem this url body opts
  | Patch => Mocker.patch new_MockItem this url body opts
  | Delete => Mocker.delete new_MockItem this url body opts
  | Head => Mocker.head new_MockItem this url opts
  | Any => Mocker.any new_MockItem this url body opts
  end.

(** The option as the caller supplied it: nothing when the options object is
    left out or does not carry the option. *)
Definition supplied {A : Type} (field : MockItemExt -> option A) (opts : option MockItemExt)
  : option A :=
  match opts with
  | Some o => field o
  | None => None
  end.

(** How many properties of an object carry the key. *)
Definition count_key (o : list (string * MockItem.t)) (k : string) : nat :=
  length (List.filter (fun e => String.eqb (fst e) k) o).

(** ** Diagnostics: [groupLog] and [sendResponseLog] *)

(** [obj[key] = val] and [obj[key]] on an ordered object with values of any
    type, for a property name that is not an array index: an existing
    property keeps its place, a new one goes last.  [{...o, key: val}] is
    [obj_assign] on a copy of [o]. *)
Fixpoint obj_assign {V : Type} (o : list (string * V)) (k : string) (v : V)
  : list (string * V) :=
  match o with
  | [] => [(k, v)]
  | (k', v') :: o' =>
      if String.eqb k' k then (k, v) :: o' else (k', v') :: obj_assign o' k v
  end.

Fixpoint obj_get {V : Type} (o : list (string * V)) (k : string) : option V :=
  match o with
  | [] => None
  | (k', v') :: o' => if String.eqb k' k then Some v' else obj_get o' k
  end.

(** The fields of [RequestInfo] that [sendResponseLog] reads. *)
Record RequestInfo : Type := {
  req_url : string;
  req_method : JsValue
}.

(** A value handed to the console: a primitive, the request, the mock item,
    the object literal with the response ([body], [spent], [headers],
    [status], [statusText]) or the object literal with six fields of the mock
    item ([url], [method], [delay], [times], [status], [disable]). *)
Inductive LogValue : Type :=
| LUndefined
| LString (s : string)
| LNumber (z : Z)
| LJs (v : JsValue)
| LRequest (r : RequestInfo)
| LMockItem (m : MockItem.t)
| LResponse (body : JsValue) (spent : Z) (headers : Header) (status : option Z)
    (statusText : string)
| LMockItemLess (url method : JsValue) (delay : option Z) (times : option Num)
    (status : option Z) (disable : JsValue).

Definition of_number (n : option Z) : LogValue :=
  match n with
  | Some z => LNumber z
  | None => LUndefined
  end.

(** An element of the array [logs]: an array, which is spread into the
    console call, or any other value, which is passed as it is. *)
Inductive LogEntry : Type :=
| Spread (args : list LogValue)
| Plain (v : LogValue).

Inductive ConsoleCall : Type :=
| GroupCollapsed (args : list LogValue)
| Log (args : list LogValue)
| GroupEnd.

(** What the methods ask of their host: [isNodejs()], [currentTime()], the
    table [HTTPStatusCodes], and whether [console.groupCollapsed] and
    [console.groupEnd] are functions. *)
Record Host : Type := {
  host_isNodejs : bool;
  currentTime : string;
  HTTPStatusCodes : Z -> option string;
  has_groupCollapsed : bool;
  has_groupEnd : bool
}.

Definition entry_args (e : LogEntry) : list LogValue :=
  match e with
  | Spread args => args
  | Plain v => [v]
  end.

(** [groupLog(logs)]: the console calls it makes, in order.  [logs[0]] of an
    empty array is [undefined]. *)
Definition groupLog (host : Host) (this : Mocker.t) (logs : list LogEntry) : list ConsoleCall :=
  if negb (Mocker.log this) then []
  else if negb (has_groupCollapsed host) then []
  else if negb (has_groupEnd host) then []
  else
    (GroupCollapsed (entry_args (List.hd (Plain LUndefined) logs))
     :: map (fun e => Log (entry_args e)) (List.tl logs)
     ++ [GroupEnd])%list.

(** [{...mockItem.header, 'x-powered-by': 'http-request-mock'}] *)
Definition response_headers (h : option Header) : Header :=
  obj_assign (default [] h) "x-powered-by" "http-request-mock".

(** [mockItem.status < 300]; an [undefined] status compares false. *)
Definition status_lt_300 (st : option Z) : bool :=
  match st with
  | Some z => (z <? 300)%Z
  | None => false
  end.

(** [HTTPStatusCodes[mockItem.status] || ''] *)
Definition status_text (host : Host) (st : option Z) : string :=
  match st with
  | Some z => default "" (HTTPStatusCodes host z)
  | None => ""
  end.

Definition sendResponseLog (host : Host) (this : Mocker.t) (spent : Z) (body : JsValue)
    (requestInfo : RequestInfo) (mockItem : MockItem.t) : list ConsoleCall :=
  let summary :=
    [LString "[http-request-mock] %s %s %s (%c%s%c)";
     LString (currentTime host);
     LJs (req_method requestInfo);
     LString (req_url requestInfo);
     LString ("color:" ++ (if status_lt_300 (MockItem.status mockItem) then "green" else "red"));
     of_number (MockItem.status mockItem);
     LString "color:inherit"] in
  let request := [LString "Request: "; LRequest requestInfo] in
  let response :=
    [LString "Response: ";
     LResponse body spent (response_headers (MockItem.header mockItem))
       (MockItem.status mockItem) (status_text host (MockItem.status mockItem))] in
  let item :=
    if host_isNodejs host
    then [LString "MockItem: ";
          LMockItemLess (MockItem.url mockItem) (MockItem.method mockItem)
            (MockItem.delay mockItem) (MockItem.times mockItem)
            (MockItem.status mockItem) (MockItem.disable mockItem)]
    else [LString "MockItem: "; LMockItem mockItem] in
  groupLog host this [Spread summary; Spread request; Spread response; Spread item].

(** ** The command line tool ([http-request-mock-cli]) *)

(** The line feed, and [s.split(c)], [parts.join(sep)] for a separator of one
    character. *)
Definition LF : ascii := ascii_of_nat 10.

Fixpoint split (c : ascii) (s : string) : list string :=
  match s with
  | EmptyString => [EmptyString]
  | String a t =>
      if Ascii.eqb a c then EmptyString :: split c t
      else match split c t with
           | h :: r => String a h :: r
           | [] => [String a EmptyString]
           end
  end.

Fixpoint join (c : ascii) (parts : list string) : string :=
  match parts with
  | [] => EmptyString
  | [p] => p
  | p :: rest => p ++ String c (join c rest)
  end.

(** The class of [\w]. *)
Definition is_word (c : ascii) : bool :=
  let n := nat_of_ascii c in
  ((48 <=? n) && (n <=? 57) || (65 <=? n) && (n <=? 90)
   || (97 <=? n) && (n <=? 122) || (n =? 95))%nat.

Fixpoint all_chars (p : ascii -> bool) (s : string) : bool :=
  match s with
  | EmptyString => true
  | String a t => p a && all_chars p t
  end.

(** The longest prefix of characters in a class, and what follows it. *)
Fixpoint span (p : ascii -> bool) (s : string) : string * string :=
  match s with
  | EmptyString => (EmptyString, EmptyString)
  | String a t =>
      if p a then let '(h, r) := span p t in (String a h, r)
      else (EmptyString, s)
  end.

(** [s] without the suffix [suffix], when it ends in it. *)
Fixpoint strip_suffix (suffix s : string) : option string :=
  if String.eqb s suffix then Some EmptyString
  else match s with
       | EmptyString => None
       | String a t =>
           match strip_suffix suffix t with
           | Some r => Some (String a r)
           | None => None
           end
       end.

(** The options commander parses into [program]. *)
Module Program.

(** The value commander leaves for an option: [undefined], [true] for a flag
    given without argument, or the argument. *)
Inductive OptValue : Type :=
| Absent
| Flag
| Arg (s : string).

Record t : Type := {
  directory : OptValue;
  environment : OptValue;
  init : OptValue;
  watch : OptValue;
  inject : OptValue;
  type : OptValue;
  proxy : OptValue;
  proto : OptValue
}.

End Program.

Module Cli.

Import Program.

Definition truthy (v : OptValue) : bool :=
  match v with
  | Absent => false
  | Flag => true
  | Arg s => negb (String.eqb s "")
  end.

(** [v === s] *)
Definition is_string (v : OptValue) (s : string) : bool :=
  match v with
  | Arg t => String.eqb t s
  | _ => false
  end.

(** [String(v)] *)
Definition text (v : OptValue) : string :=
  match v with
  | Absent => "undefined"
  | Flag => "true"
  | Arg s => s
  end.

(** [/^\w+=\w+$/.test(s)]: a run of word characters, an equals sign, a run of
    word characters, and nothing else. *)
Definition environment_test (s : string) : bool :=
  let '(name, rest) := span is_word s in
  negb (String.eqb name "")
  && match rest with
     | String c value =>
         Ascii.eqb c "="%char && negb (String.eqb value "") && all_chars is_word value
     | EmptyString => false
     end.

(** The assignment to [program.environment] in the constructor. *)
Definition constructor_environment (program : Program.t) : OptValue :=
  if truthy (Program.environment program)
     && environment_test (text (Program.environment program))
  then Program.environment program
  else Arg "".

(** [program.environment ? program.environment.split('=') : null], the value
    [init] and [watch] give [webpack.environment]; [split] is a method of
    strings only. *)
Definition webpack_environment (env : OptValue) : Completion (option (list string)) :=
  if truthy env then
    match env with
    | Arg s => Normal (Some (split "="%char s))
    | _ => Throw (TypeError "program.environment.split is not a function")
    end
  else Normal None.

(** The method [main] hands over to. *)
Inductive Action : Type :=
| RunInit
| RunInject
| RunWatch
| RunProto
| RunProxy
| Help.

Definition main (program : Program.t) : Action :=
  if truthy (Program.init program) then RunInit
  else if truthy (Program.inject program) then RunInject
  else if truthy (Program.watch program) then RunWatch
  else if truthy (Program.proto program) then RunProto
  else if is_string (Program.proxy program) "matched"
          && is_string (Program.proxy program) "marked" then RunProxy
  else Help.

(** The argument of [server.init]. *)
Record ServerOptions : Type := {
  server_type : OptValue;
  mockDir : string;
  server_environment : OptValue;
  proxyMode : OptValue
}.

Section Paths.

(** [path.resolve(this.appRoot, program.directory)] *)
Variable resolve_directory : OptValue -> string.

(** [proxy()]: the calls of [server.init] it makes. *)
Definition proxy (program : Program.t) : list ServerOptions :=
  if is_string (Program.proxy program) "matched" && is_string (Program.proxy program) "marked"
  then [{| server_type := Program.type program;
           mockDir := resolve_directory (Program.directory program);
           server_environment := Program.environment program;
           proxyMode := Program.proxy program |}]
  else [].

(** [watch()]: the calls of [server.init] it makes before it starts watching,
    once [.runtime.js] is known to exist. *)
Definition watch_server (program : Program.t) : list ServerOptions :=
  if is_string (Program.proxy program) "matched" || is_string (Program.proxy program) "marked"
  then [{| server_type := Program.type program;
           mockDir := resolve_directory (Program.directory program);
           server_environment := Program.environment program;
           proxyMode := Program.proxy program |}]
  else [].

End Paths.

(** *** inject *)

(** [runtime.replace(/\\/g, '/')] *)
Fixpoint replace_backslashes (s : string) : string :=
  match s with
  | EmptyString => EmptyString
  | String a t =>
      String (if Ascii.eqb a (ascii_of_nat 92) then "/"%char else a) (replace_backslashes t)
  end.

(** [/^\./.test(s)] *)
Definition starts_with_dot (s : string) : bool :=
  match s with
  | String a _ => Ascii.eqb a "."%char
  | EmptyString => false
  end.

(** The two assignments to [runtime] after [path.relative], whose result is
    [relative]; [win32] is [process.platform === 'win32']. *)
Definition inject_runtime (win32 : bool) (relative : string) : string :=
  let runtime := if win32 then replace_backslashes relative else relative in
  if starts_with_dot runtime then runtime else "./" ++ runtime.

(** [s.indexOf(needle) !== -1] *)
Definition contains (s needle : string) : bool :=
  negb (indexOf s needle =? -1)%Z.

(** The test of [entryContent] for an import of [.runtime.js]: a slash or a
    backslash, the text [.runtime.js], and a closing quote of either kind. *)
Definition already_injected (entryContent : string) : bool :=
  let quote := String "'"%char EmptyString in
  let dquote := String (ascii_of_nat 34) EmptyString in
  let backslash := String (ascii_of_nat 92) EmptyString in
  contains entryContent ("/.runtime.js" ++ quote)
  || contains entryContent ("/.runtime.js" ++ dquote)
  || contains entryContent (backslash ++ ".runtime.js" ++ quote)
  || contains entryContent (backslash ++ ".runtime.js" ++ dquote).

(** [codes]; [isCjs] is the outcome of the two tests of [entryContent] for
    [require(] and [import]. *)
Definition inject_codes (isCjs : bool) (runtime : string) : string :=
  join LF
    ["/* eslint-disable */";
     if isCjs then "require('" ++ runtime ++ "');" else "import '" ++ runtime ++ "';";
     "/* eslint-enable */"].

(** What [inject] does to the entry file once it exists and [init] is done:
    the content it writes, or nothing when the file already imports
    [.runtime.js]. *)
Definition inject_write (isCjs : bool) (runtime entryContent : string) : option string :=
  if already_injected entryContent then None
  else Some (inject_codes isCjs runtime ++ String LF entryContent).

(** *** generateProtorcFile *)

Definition faker_line : string :=
  "const faker = require('http-request-mock/plugin/faker.js').shadow;".

(** [content.splice(0, 1, line)] *)
Definition splice_first (content : list string) (line : string) : list string :=
  match content with
  | [] => [line]
  | _ :: rest => line :: rest
  end.

(** [generateProtorcFile]: how the call ends and, when it returns, what it
    has written to [filePath], if anything, and what it has printed.
    [file_exists] is [fs.existsSync(filePath)]; [mkdir] is the outcome of
    [fs.mkdirSync], which stands before the [try]; [tpl] is the outcome of
    reading the template and [write] that of [fs.writeFileSync] on a content,
    both inside the [try]. *)
Definition generateProtorcFile (file_exists : bool) (mkdir : Completion unit)
    (tpl : Completion string) (write : string -> Completion unit)
  : Completion (option string * list string) :=
  if file_exists then Normal (None, [])
  else
    let* made := mkdir in
    try_catch
      (let* template := tpl in
       let content := split LF template in
       let content := splice_first content faker_line in
       let* written := write (join LF content) in
       Normal (Some (join LF content), []))
      (fun err =>
         Normal (None, ["Failed to generate proto config file: " ++ message err])).

(** *** watch *)

(** [/^[\w][-\w]*\.js$/.test(filename)] *)
Definition watched_name (filename : string) : bool :=
  match strip_suffix ".js" filename with
  | Some (String a rest) =>
      is_word a && all_chars (fun c => Ascii.eqb c "-"%char || is_word c) rest
  | _ => false
  end.

Section Watcher.

(** [path.basename] *)
Variable basename : string -> string.

(** The state the watcher callback closes over: [pathsSet], in insertion order,
    and whether a timer is pending. *)
Record WatchState : Type := {
  pathsSet : list string;
  timer : bool
}.

(** The callback of [chokidar.watch(...).on('all', ...)]. *)
Definition on_all (st : WatchState) (event filePath : string) : WatchState :=
  let filename := basename filePath in
  if String.eqb event "addDir" || String.eqb event "error" then st
  else if negb (String.eqb filename "") && negb (watched_name filename) then st
  else if existsb (String.eqb filePath) (pathsSet st) then st
  else {| pathsSet := pathsSet st ++ [filePath]; timer := true |}.

(** The timer callback: the paths handed to [server.reload] and the state
    after it. *)
Definition on_timer (st : WatchState) : list string * WatchState :=
  (pathsSet st, {| pathsSet := []; timer := false |}).

End Watcher.

End Cli.

(** A specification for [get] with a url and a status. *)
Definition get_spec (u : string) (st : Z) : MockItem.t :=
  {| MockItem.key := None; MockItem.url := JString u; MockItem.method := JString "get";
     MockItem.body := JString "ok"; MockItem.delay := None; MockItem.status := Some st;
     MockItem.header := None; MockItem.times := None; MockItem.disable := JUndefined |}.

(** Logging is on and the console can group. *)
Definition can_log (host : Host) (this : Mocker.t) : bool :=
  Mocker.log this && has_groupCollapsed host && has_groupEnd host.

(** The key the constructor derives from a specification, if any, is not an
    array index. *)
Definition derives_named (construct : MockItem.t -> MockItem.t) (info : MockItem.t) : Prop :=
  forall k, MockItem.key (construct info) = Some k -> array_index k = None.

(** The url matcher of the rule accepts the request URL: a string occurs in
    it, a pattern tests true on it. *)
Definition accepts_url (info : MockItem.t) (reqUrl : string) : Prop :=
  match MockItem.url info with
  | JString s => substring_of s reqUrl
  | JRegExp re => test re reqUrl = Normal true
  | _ => False
  end.

(** * Properties *)

(** ** Strings *)

Lemma prefix_app (s1 s2 : string) :
  String.prefix s1 s2 = true <-> exists post, s2 = s1 ++ post.
Proof.
  revert s2. induction s1 as [|a s1 IH]; intros s2.
  - split; [intros _; exists s2; reflexivity | intros _; destruct s2; reflexivity].
  - destruct s2 as [|b s2]; simpl.
    + split; [discriminate | intros [post H]; discriminate].
    + destruct (Ascii.ascii_dec a b) as [->|Hne].
      * split.
        -- intros H. apply IH in H as [post H]. exists post. now rewrite H.
        -- intros [post H]. apply IH. exists post. now inversion H.
      * split; [discriminate | intros [post H]; inversion H; congruence].
Qed.

Lemma index_app (needle hay : string) :
  String.index 0 needle hay <> None <-> exists pre post, hay = pre ++ needle ++ post.
Proof.
  induction hay as [|b hay IH].
  - simpl. destruct needle as [|a needle].
    + split; [intros _; exists "", ""; reflexivity | discriminate].
    + split; [congruence |].
      intros [pre [post H]]. destruct pre; simpl in H; discriminate H.
  - change (String.index 0 needle (String b hay))
      with (if String.prefix needle (String b hay) then Some 0%nat
            else match String.index 0 needle hay with
                 | Some n => Some (S n)
                 | None => None
                 end).
    destruct (String.prefix needle (String b hay)) eqn:Hp.
    + split; [intros _ | intros _; discriminate].
      apply prefix_app in Hp as [post Hp]. exists "", post. exact Hp.
    + split.
      * intros H. destruct (String.index 0 needle hay) eqn:Hi; [|congruence].
        destruct IH as [IH _]. destruct IH as [pre [post E]]; [discriminate|].
        exists (String b pre), post. simpl. now rewrite E.
      * intros [pre [post E]]. destruct pre as [|c pre].
        -- simpl in E. assert (String.prefix needle (String b hay) = true) as Ht.
           { apply prefix_app. now exists post. }
           congruence.
        -- simpl in E. inversion E; subst.
           destruct IH as [_ IH]. destruct (String.index 0 needle (pre ++ needle ++ post)).
           ++ discriminate.
           ++ exfalso. apply IH; [|reflexivity]. now exists pre, post.
Qed.

(** [hay.indexOf(needle) !== -1] says that [needle] is a substring of [hay]. *)
Lemma indexOf_substring (hay needle : string) :
  negb (indexOf hay needle =? -1)%Z = true <-> exists pre post, hay = pre ++ needle ++ post.
Proof.
  rewrite <- index_app. unfold indexOf.
  destruct (String.index 0 needle hay) as [n|]; simpl.
  - split; [discriminate|]. intros _. apply negb_true_iff, Z.eqb_neq. lia.
  - split; [discriminate | congruence].
Qed.

(** ** The loop of [matchMockItem] *)

Lemma loop_body_returns_self (info r : MockItem.t) (reqUrl rm : string) :
  Mocker.loop_body info reqUrl rm = Normal (Return r) -> r = info.
Proof.
  unfold Mocker.loop_body.
  destruct (_ || _); [discriminate|].
  destruct (ToString (MockItem.method info)) as [m|e]; simpl; [|discriminate].
  destruct (_ && _); [discriminate|].
  destruct (match MockItem.url info with JRegExp r0 => test r0 reqUrl | _ => Normal false end)
    as [[|]|e]; simpl; try discriminate.
  - now intros [= ->].
  - destruct (ToString (MockItem.url info)) as [u|e]; simpl; [|discriminate].
    destruct (negb _); [now intros [= ->] | discriminate].
Qed.

Lemma guarded_not_match (info : MockItem.t) (reqUrl rm : string) :
  Mocker.loop_body info reqUrl rm <> Normal (Return info) ->
  guarded reqUrl rm info = Normal Continue.
Proof.
  intros H. unfold guarded.
  destruct (Mocker.loop_body info reqUrl rm) as [[|r]|e] eqn:E; simpl; try reflexivity.
  apply loop_body_returns_self in E as E'. subst r. contradiction.
Qed.

Lemma for_in_skip_prefix (pre rest : list (string * MockItem.t)) (reqUrl rm : string) :
  Forall (fun e => Mocker.loop_body (snd e) reqUrl rm <> Normal (Return (snd e))) pre ->
  for_in (pre ++ rest) (guarded reqUrl rm) = for_in rest (guarded reqUrl rm).
Proof.
  induction 1 as [|[k info] pre Hx _ IH]; [reflexivity|].
  cbn [app for_in]. cbn [snd] in Hx. rewrite (guarded_not_match _ _ _ Hx). exact IH.
Qed.

Lemma for_in_first_match (pre post : list (string * MockItem.t)) (k : string)
    (info : MockItem.t) (reqUrl rm : string) :
  Forall (fun e => Mocker.loop_body (snd e) reqUrl rm <> Normal (Return (snd e))) pre ->
  Mocker.loop_body info reqUrl rm = Normal (Return info) ->
  for_in (pre ++ (k, info) :: post) (guarded reqUrl rm) = Normal (Some info).
Proof.
  intros Hpre Hinfo. rewrite for_in_skip_prefix by exact Hpre.
  cbn [for_in]. unfold guarded. now rewrite Hinfo.
Qed.

Lemma matchMockItem_enabled (this : Mocker.t) (reqUrl : string) (reqMethod : option string) :
  Mocker.disabled this = false ->
  Mocker.matchMockItem this reqUrl reqMethod
  = for_in (Mocker.mockConfigData this) (guarded reqUrl (or_default reqMethod "get")).
Proof. intros H. unfold Mocker.matchMockItem. now rewrite H. Qed.

(** C1. First match wins: when the registry is enabled and two rules match the
    request, the one that comes first in insertion order among the matching
    rules is the one returned, whatever the later rule is. *)
Theorem first_match_wins (this : Mocker.t) (reqUrl : string) (reqMethod : option string)
    (pre mid post : list (string * MockItem.t)) (k1 k2 : string) (r1 r2 : MockItem.t) :
  Mocker.disabled this = false ->
  Mocker.mockConfigData this = (pre ++ (k1, r1) :: mid ++ (k2, r2) :: post)%list ->
  Forall (fun e => ~ criteria_match (snd e) reqUrl reqMethod) pre ->
  criteria_match r1 reqUrl reqMethod ->
  criteria_match r2 reqUrl reqMethod ->
  Mocker.matchMockItem this reqUrl reqMethod = Normal (Some r1).
Proof.
  intros Hen Hcfg Hpre H1 _. rewrite matchMockItem_enabled, Hcfg by exact Hen.
  apply for_in_first_match; assumption.
Qed.

Lemma first_match_wins_witness :
  Mocker.matchMockItem
    (registry [rule (JString "/api/user") "post" 201;
               rule (JString "/api") "any" 200;
               rule (JString "/api/user") "get" 404])
    "http://host/api/user" (Some "GET")
  = Normal (Some (rule (JString "/api") "any" 200)).
Proof.
  apply (first_match_wins _ _ _
           [("/api/user-post", rule (JString "/api/user") "post" 201)] [] []
           "/api-any" "/api/user-get" _ (rule (JString "/api/user") "get" 404)).
  - reflexivity.
  - reflexivity.
  - constructor; [|constructor]. intros H. vm_compute in H. discriminate H.
  - reflexivity.
  - reflexivity.
Defined.

(** ** The global switch *)

Lemma new_allocates (w : Mocker.World) :
  Mocker.instance w = None ->
  Mocker.deref (snd (Mocker.new w)) (fst (Mocker.new w)) = Some (Mocker.fresh w).
Proof.
  intros H. unfold Mocker.new, Mocker.deref. rewrite H. simpl.
  now apply list_lookup_middle.
Qed.

(** C2. The global switch gates all matching: with the switch off,
    [matchMockItem] returns no match for every request; [enable] after
    [disable] gives back the registry as it was, rules included, so every
    request is matched as before; and the object a construction creates has the
    switch on. *)
Theorem global_disable_gates (this : Mocker.t) (reqUrl : string) (reqMethod : option string)
    (w : Mocker.World) :
  (Mocker.disabled this = true -> Mocker.matchMockItem this reqUrl reqMethod = Normal None)
  /\ Mocker.matchMockItem (Mocker.disable this) reqUrl reqMethod = Normal None
  /\ Mocker.mockConfigData (Mocker.enable (Mocker.disable this)) = Mocker.mockConfigData this
  /\ (Mocker.disabled this = false ->
      Mocker.enable (Mocker.disable this) = this
      /\ Mocker.matchMockItem (Mocker.enable (Mocker.disable this)) reqUrl reqMethod
         = Mocker.matchMockItem this reqUrl reqMethod)
  /\ (Mocker.instance w = None ->
      exists o, Mocker.deref (snd (Mocker.new w)) (fst (Mocker.new w)) = Some o
                /\ Mocker.disabled o = false).
Proof.
  repeat split.
  - intros H. unfold Mocker.matchMockItem. now rewrite H.
  - destruct this as [cfg d l]. simpl in H. now subst d.
  - destruct this as [cfg d l]. simpl in H. now subst d.
  - intros H. exists (Mocker.fresh w). split; [now apply new_allocates | reflexivity].
Qed.

Lemma global_disable_gates_witness :
  let this := registry [rule (JString "/api/user") "get" 200] in
  Mocker.matchMockItem this "/api/user" None = Normal (Some (rule (JString "/api/user") "get" 200))
  /\ Mocker.matchMockItem (Mocker.disable this) "/api/user" None = Normal None
  /\ Mocker.matchMockItem (Mocker.enable (Mocker.disable this)) "/api/user" None
     = Normal (Some (rule (JString "/api/user") "get" 200))
  /\ Mocker.matchMockItem (Mocker.disable (Mocker.disable this)) "/api/user" None = Normal None
  /\ exists o, Mocker.deref (snd (Mocker.new empty_world)) (fst (Mocker.new empty_world)) = Some o
               /\ Mocker.disabled o = false.
Proof.
  intros this.
  destruct (global_disable_gates this "/api/user" None empty_world)
    as (_ & Hoff & _ & Hback & Hnew).
  destruct (global_disable_gates (Mocker.disable this) "/api/user" None empty_world)
    as (Hgate & _).
  destruct (Hback eq_refl) as [_ Hsame].
  split; [reflexivity|]. split; [exact Hoff|].
  split; [rewrite Hsame; reflexivity|].
  split; [|exact (Hnew eq_refl)].
  unfold Mocker.disable at 1. apply (Hgate eq_refl).
Defined.

(** ** Skipped rules *)

Lemma skipped_continue (info : MockItem.t) (reqUrl rm : string) :
  skipped info = true -> Mocker.loop_body info reqUrl rm = Normal Continue.
Proof. unfold skipped, Mocker.loop_body. now intros ->. Qed.

Lemma for_in_returns (l : list (string * MockItem.t)) (reqUrl rm : string) (r : MockItem.t) :
  for_in l (guarded reqUrl rm) = Normal (Some r) ->
  (exists k, In (k, r) l) /\ Mocker.loop_body r reqUrl rm = Normal (Return r).
Proof.
  induction l as [|[k info] l IH]; [discriminate|].
  cbn [for_in]. unfold guarded at 1.
  destruct (Mocker.loop_body info reqUrl rm) as [[|r']|e] eqn:E; simpl.
  - intros H. destruct (IH H) as [[k' Hin] Hr]. split; [exists k'; now right | exact Hr].
  - intros [= <-]. apply loop_body_returns_self in E as E'. subst r'.
    split; [exists k; now left | exact E].
  - intros H. destruct (IH H) as [[k' Hin] Hr]. split; [exists k'; now right | exact Hr].
Qed.

Lemma for_in_filter_skipped (l : list (string * MockItem.t)) (reqUrl rm : string) :
  for_in (List.filter (fun e => negb (skipped (snd e))) l) (guarded reqUrl rm)
  = for_in l (guarded reqUrl rm).
Proof.
  induction l as [|[k info] l IH]; [reflexivity|].
  cbn [List.filter snd]. destruct (skipped info) eqn:E; cbn [negb for_in].
  - unfold guarded at 2. rewrite (skipped_continue _ _ _ E). exact IH.
  - now rewrite IH.
Qed.

Lemma candidate_accepted (info : MockItem.t) (reqUrl rm : string) (m : string) :
  skipped info = false ->
  ToString (MockItem.method info) = Normal m ->
  toLowerCase m = "any" \/ toLowerCase m = toLowerCase rm ->
  accepts_url info reqUrl ->
  Mocker.loop_body info reqUrl rm = Normal (Return info).
Proof.
  intros Hs Hm Hcmp Hu. unfold Mocker.loop_body. fold (skipped info). rewrite Hs, Hm.
  cbn [bind].
  assert (negb (String.eqb (toLowerCase m) "any")
          && negb (String.eqb (toLowerCase m) (toLowerCase rm)) = false) as ->.
  { destruct Hcmp as [-> | ->]; [reflexivity|]. now rewrite String.eqb_refl, andb_false_r. }
  unfold accepts_url in Hu. destruct (MockItem.url info) as [|s|re|d]; try contradiction.
  - cbn. apply indexOf_substring in Hu. now rewrite Hu.
  - rewrite Hu. reflexivity.
Qed.

(** C3. Rule skipping: a rule returned by [matchMockItem] never has its
    [disable] flag set (whatever its [times]) and never has a [times] that is
    defined and at most 0; the result is the same as on the registry with the
    skipped rules taken out; and every other rule remains a candidate in
    insertion order: a rule that is not skipped, whose method is compatible
    and whose url matcher accepts the request URL is returned when each rule
    before it is skipped or does not match. *)
Theorem skipped_rules_never_returned (this : Mocker.t) (reqUrl : string)
    (reqMethod : option string) :
  (forall r, Mocker.matchMockItem this reqUrl reqMethod = Normal (Some r) ->
     MockItem.disable r <> JString "yes"
     /\ (forall z, MockItem.times r = Some (Finite z) -> (0 < z)%Z))
  /\ Mocker.matchMockItem this reqUrl reqMethod
     = Mocker.matchMockItem
         (with_rules this
            (List.filter (fun e => negb (skipped (snd e))) (Mocker.mockConfigData this)))
         reqUrl reqMethod
  /\ (forall pre k info post,
        Mocker.disabled this = false ->
        Mocker.mockConfigData this = (pre ++ (k, info) :: post)%list ->
        Forall (fun e => skipped (snd e) = true
                         \/ ~ criteria_match (snd e) reqUrl reqMethod) pre ->
        skipped info = false ->
        method_compatible info reqMethod ->
        accepts_url info reqUrl ->
        Mocker.matchMockItem this reqUrl reqMethod = Normal (Some info)).
Proof.
  split; [|split].
  - intros r H. unfold Mocker.matchMockItem in H.
    destruct (Mocker.disabled this); [discriminate|].
    apply for_in_returns in H as [_ H].
    assert (skipped r = false) as Hs.
    { destruct (skipped r) eqn:E; [|reflexivity].
      rewrite (skipped_continue _ _ _ E) in H. discriminate H. }
    unfold skipped in Hs. apply orb_false_iff in Hs as [Hd Ht]. split.
    + intros Hyes. rewrite Hyes in Hd. discriminate Hd.
    + intros z Hz. rewrite Hz in Ht. simpl in Ht. apply Z.leb_gt in Ht. exact Ht.
  - unfold Mocker.matchMockItem, with_rules. simpl.
    destruct (Mocker.disabled this); [reflexivity|].
    symmetry. apply for_in_filter_skipped.
  - intros pre k info post Hen Hcfg Hpre Hs [m [Hm Hcmp]] Hu.
    rewrite matchMockItem_enabled, Hcfg by exact Hen.
    apply for_in_first_match.
    + eapply Forall_impl; [exact Hpre|]. intros e [He|He]; [|exact He].
      rewrite (skipped_continue _ _ _ He). discriminate.
    + now apply (candidate_accepted info reqUrl _ m).
Qed.

Lemma skipped_rules_never_returned_witness :
  let item (m : string) (t : Num) (d : JsValue) :=
      new_MockItem
        {| MockItem.key := None; MockItem.url := JString "/a"; MockItem.method := JString m;
           MockItem.body := JUndefined; MockItem.delay := None; MockItem.status := None;
           MockItem.header := None; MockItem.times := Some t; MockItem.disable := d |} in
  let off := item "post" Infinity (JString "yes") in
  let used := item "any" (Finite 0) JUndefined in
  let other := item "get" Infinity JUndefined in
  let live := item "patch" (Finite 1) JUndefined in
  let this := registry [off; used; other; live] in
  Mocker.matchMockItem this "/a" (Some "PATCH") = Normal (Some live)
  /\ MockItem.disable live <> JString "yes"
  /\ (0 < 1)%Z
  /\ Mocker.matchMockItem this "/a" (Some "PATCH")
     = Mocker.matchMockItem (with_rules this [("/a-get", other); ("/a-patch", live)])
         "/a" (Some "PATCH").
Proof.
  intros item off used other live this.
  destruct (skipped_rules_never_returned this "/a" (Some "PATCH")) as (Hret & Hsame & Hcand).
  assert (Mocker.matchMockItem this "/a" (Some "PATCH") = Normal (Some live)) as Hm.
  { apply (Hcand [("/a-post", off); ("/a-any", used); ("/a-get", other)] "/a-patch" live []).
    - reflexivity.
    - reflexivity.
    - constructor; [now left|]. constructor; [now left|]. constructor; [|constructor].
      right. intros H. vm_compute in H. discriminate H.
    - reflexivity.
    - exists "patch". split; [reflexivity | now right].
    - now exists "", "". }
  destruct (Hret live Hm) as [Hflag Htimes].
  split; [exact Hm|]. split; [exact Hflag|]. split; [exact (Htimes 1%Z eq_refl)|].
  exact Hsame.
Defined.

(** ** Exceptions inside the loop *)

Lemma for_in_guarded_total (l : list (string * MockItem.t)) (reqUrl rm : string) :
  exists r, for_in l (guarded reqUrl rm) = Normal r.
Proof.
  induction l as [|[k info] l IH]; [now exists None|].
  cbn [for_in]. unfold guarded at 1.
  destruct (Mocker.loop_body info reqUrl rm) as [[|r]|e]; simpl; [exact IH | now exists (Some r) | exact IH].
Qed.

Lemma for_in_drop (pre post : list (string * MockItem.t)) (k : string) (info : MockItem.t)
    (reqUrl rm : string) :
  guarded reqUrl rm info = Normal Continue ->
  for_in (pre ++ (k, info) :: post) (guarded reqUrl rm)
  = for_in (pre ++ post) (guarded reqUrl rm).
Proof.
  intros H. induction pre as [|[k' i'] pre IH]; cbn [app for_in].
  - now rewrite H.
  - now rewrite IH.
Qed.

(** C7. [matchMockItem] never raises: on every registry and request it
    completes normally; and a rule whose evaluation raises counts as a rule
    that does not match, the result being the one of the registry without that
    rule, so the rules after it are still tried. *)
Theorem match_never_throws (this : Mocker.t) (reqUrl : string) (reqMethod : option string) :
  (exists r, Mocker.matchMockItem this reqUrl reqMethod = Normal r)
  /\ (forall pre k info post e,
        Mocker.mockConfigData this = (pre ++ (k, info) :: post)%list ->
        Mocker.loop_body info reqUrl (or_default reqMethod "get") = Throw e ->
        Mocker.matchMockItem this reqUrl reqMethod
        = Mocker.matchMockItem (with_rules this (pre ++ post)) reqUrl reqMethod).
Proof.
  split.
  - unfold Mocker.matchMockItem. destruct (Mocker.disabled this); [now exists None|].
    apply for_in_guarded_total.
  - intros pre k info post e Hcfg He. unfold Mocker.matchMockItem, with_rules. simpl.
    destruct (Mocker.disabled this); [reflexivity|]. rewrite Hcfg.
    apply for_in_drop. unfold guarded. now rewrite He.
Qed.

Lemma match_never_throws_witness :
  let bad_method :=
      {| MockItem.key := Some "k1"; MockItem.url := JString "/a";
         MockItem.method := JSymbol "m"; MockItem.body := JUndefined;
         MockItem.delay := None; MockItem.status := None; MockItem.header := None;
         MockItem.times := None; MockItem.disable := JUndefined |} in
  let bad_pattern := rule (JRegExp re_broken) "get" 200 in
  let good := rule (JString "/a") "get" 200 in
  let this := registry [bad_method; bad_pattern; good] in
  Mocker.loop_body bad_method "/a" "get" = Throw (TypeError "Cannot convert a Symbol value to a string")
  /\ Mocker.loop_body bad_pattern "/a" "get" = Throw (Thrown "exec")
  /\ Mocker.matchMockItem this "/a" None = Normal (Some good)
  /\ Mocker.matchMockItem this "/a" None
     = Mocker.matchMockItem (with_rules this [("/x/-get", bad_pattern); ("/a-get", good)]) "/a" None.
Proof.
  intros bad_method bad_pattern good this.
  split; [reflexivity|]. split; [reflexivity|]. split; [reflexivity|].
  apply (proj2 (match_never_throws this "/a" None) [] "k1" bad_method
           [("/x/-get", bad_pattern); ("/a-get", good)]
           (TypeError "Cannot convert a Symbol value to a string"));
    reflexivity.
Defined.

(** ** Ordered objects *)

Lemma get_set_property (o : list (string * MockItem.t)) (k : string) (v : MockItem.t) :
  get_property (set_property o k v) k = Some v.
Proof.
  induction o as [|[k' v'] o IH]; cbn [set_property].
  - simpl. now rewrite String.eqb_refl.
  - destruct (String.eqb k' k) eqn:E.
    + simpl. now rewrite String.eqb_refl.
    + destruct (comes_before k k'); simpl.
      * now rewrite String.eqb_refl.
      * now rewrite E.
Qed.

Lemma comes_before_named (k k' : string) :
  array_index k = None -> comes_before k k' = false.
Proof. unfold comes_before. now intros ->. Qed.

(** A name that is not an array index is assigned as [obj_assign] does. *)
Lemma set_property_named (o : list (string * MockItem.t)) (k : string) (v : MockItem.t) :
  array_index k = None -> set_property o k v = obj_assign o k v.
Proof.
  intros Hk. induction o as [|[k' v'] o IH]; cbn [set_property obj_assign]; [reflexivity|].
  rewrite (comes_before_named k k' Hk). now rewrite IH.
Qed.

Lemma assign_keys_present (o : list (string * MockItem.t)) (k : string) (v : MockItem.t) :
  In k (map fst o) -> map fst (obj_assign o k v) = map fst o.
Proof.
  induction o as [|[k' v'] o IH]; simpl; [contradiction|].
  intros H. destruct (String.eqb k' k) eqn:E; simpl.
  - apply String.eqb_eq in E. now subst.
  - f_equal. apply IH. destruct H as [H|H]; [|exact H].
    apply String.eqb_neq in E. contradiction.
Qed.

Lemma assign_keys_new (o : list (string * MockItem.t)) (k : string) (v : MockItem.t) :
  ~ In k (map fst o) -> obj_assign o k v = (o ++ [(k, v)])%list.
Proof.
  induction o as [|[k' v'] o IH]; simpl; [reflexivity|].
  intros H. destruct (String.eqb k' k) eqn:E; simpl.
  - apply String.eqb_eq in E. exfalso. apply H. now left.
  - f_equal. apply IH. intros Hin. apply H. now right.
Qed.

Lemma assign_has_key (o : list (string * MockItem.t)) (k : string) (v : MockItem.t) :
  In k (map fst (obj_assign o k v)).
Proof.
  induction o as [|[k' v'] o IH]; simpl; [now left|].
  destruct (String.eqb k' k) eqn:E; simpl; [now left | now right].
Qed.

Lemma assign_NoDup (o : list (string * MockItem.t)) (k : string) (v : MockItem.t) :
  List.NoDup (map fst o) -> List.NoDup (map fst (obj_assign o k v)).
Proof.
  intros H. destruct (in_dec String.string_dec k (map fst o)) as [Hin|Hout].
  - now rewrite assign_keys_present.
  - rewrite assign_keys_new by exact Hout. rewrite map_app.
    apply NoDup_ListNoDup, NoDup_app. repeat split.
    + now apply NoDup_ListNoDup.
    + intros x Hx Hk. apply list_elem_of_In in Hx. apply list_elem_of_In in Hk.
      destruct Hk as [<-|[]]. contradiction.
    + apply NoDup_ListNoDup. constructor; [intros [] | constructor].
Qed.

Lemma assign_entries (o : list (string * MockItem.t)) (k k' : string) (v r : MockItem.t) :
  List.NoDup (map fst o) ->
  In (k', r) (obj_assign o k v) ->
  (k' = k /\ r = v) \/ (k' <> k /\ In (k', r) o).
Proof.
  induction o as [|[k0 v0] o IH]; simpl.
  - intros _ [[= <- <-]|[]]. now left.
  - intros Hnd Hin. inversion Hnd as [|? ? Hk0 Hnd']; subst.
    destruct (String.eqb k0 k) eqn:E.
    + apply String.eqb_eq in E. subst k0. destruct Hin as [[= <- <-]|Hin]; [now left|].
      right. split; [|now right]. intros ->. apply Hk0.
      apply in_map_iff. now exists (k, r).
    + apply String.eqb_neq in E. destruct Hin as [[= <- <-]|Hin].
      * right. split; [exact E | now left].
      * destruct (IH Hnd' Hin) as [H|[H1 H2]]; [now left | right; split; [exact H1 | now right]].
Qed.

Lemma count_key_absent (o : list (string * MockItem.t)) (k : string) :
  ~ In k (map fst o) -> count_key o k = 0%nat.
Proof.
  unfold count_key. induction o as [|[k' v'] o IH]; simpl; [reflexivity|].
  intros H. destruct (String.eqb k' k) eqn:E.
  - apply String.eqb_eq in E. exfalso. apply H. now left.
  - apply IH. intros Hin. apply H. now right.
Qed.

Lemma count_key_NoDup (o : list (string * MockItem.t)) (k : string) :
  List.NoDup (map fst o) -> In k (map fst o) -> count_key o k = 1%nat.
Proof.
  unfold count_key. induction o as [|[k' v'] o IH]; simpl; [contradiction|].
  intros Hnd Hin. inversion Hnd as [|? ? Hk' Hnd']; subst.
  destruct (String.eqb k' k) eqn:E; simpl.
  - apply String.eqb_eq in E. subst k'. f_equal. now apply count_key_absent.
  - apply String.eqb_neq in E. apply IH; [exact Hnd'|]. destruct Hin; [contradiction | assumption].
Qed.

Lemma assign_position (o : list (string * MockItem.t)) (k : string) (v0 v : MockItem.t)
    (i : nat) :
  List.NoDup (map fst o) ->
  o !! i = Some (k, v0) ->
  obj_assign o k v !! i = Some (k, v).
Proof.
  revert i. induction o as [|[k' v'] o IH]; intros i Hnd Hi; [discriminate|].
  simpl. inversion Hnd as [|? ? Hk' Hnd']; subst.
  destruct i as [|i]; simpl in Hi.
  - injection Hi as -> ->. now rewrite String.eqb_refl.
  - destruct (String.eqb k' k) eqn:E.
    + apply String.eqb_eq in E. subst k'. exfalso. apply Hk'.
      apply in_map_iff. exists (k, v0). split; [reflexivity|].
      apply list_elem_of_In, list_elem_of_lookup. now exists i.
    + simpl. now apply IH.
Qed.

Lemma assign_key_at (o : list (string * MockItem.t)) (k k0 : string) (v : MockItem.t)
    (i : nat) :
  fst <$> o !! i = Some k0 ->
  fst <$> obj_assign o k v !! i = Some k0.
Proof.
  revert i. induction o as [|[k' v'] o IH]; intros i Hi; [discriminate|].
  simpl. destruct (String.eqb k' k) eqn:E.
  - destruct i as [|i]; simpl in *; [|exact Hi].
    apply String.eqb_eq in E. now subst.
  - destruct i as [|i]; simpl in *; [exact Hi | now apply IH].
Qed.

(** The same facts for [set_property] and a name that is not an array
    index. *)
Section NamedProperty.

Variables (o : list (string * MockItem.t)) (k : string) (v : MockItem.t).
Hypothesis named : array_index k = None.

Lemma set_property_keys_present :
  In k (map fst o) -> map fst (set_property o k v) = map fst o.
Proof. rewrite (set_property_named o k v named). apply assign_keys_present. Qed.

Lemma set_property_new :
  ~ In k (map fst o) -> set_property o k v = (o ++ [(k, v)])%list.
Proof. rewrite (set_property_named o k v named). apply assign_keys_new. Qed.

Lemma set_property_has_key : In k (map fst (set_property o k v)).
Proof. rewrite (set_property_named o k v named). apply assign_has_key. Qed.

Lemma set_property_NoDup :
  List.NoDup (map fst o) -> List.NoDup (map fst (set_property o k v)).
Proof. rewrite (set_property_named o k v named). apply assign_NoDup. Qed.

Lemma set_property_entries (k' : string) (r : MockItem.t) :
  List.NoDup (map fst o) ->
  In (k', r) (set_property o k v) ->
  (k' = k /\ r = v) \/ (k' <> k /\ In (k', r) o).
Proof. rewrite (set_property_named o k v named). apply assign_entries. Qed.

Lemma set_property_position (v0 : MockItem.t) (i : nat) :
  List.NoDup (map fst o) ->
  o !! i = Some (k, v0) ->
  set_property o k v !! i = Some (k, v).
Proof. rewrite (set_property_named o k v named). apply assign_position. Qed.

Lemma set_property_key_at (k0 : string) (i : nat) :
  fst <$> o !! i = Some k0 ->
  fst <$> set_property o k v !! i = Some k0.
Proof. rewrite (set_property_named o k v named). apply assign_key_at. Qed.

End NamedProperty.

(** ** The URL test *)

Section UrlTest.

Variables (info : MockItem.t) (reqUrl : string) (reqMethod : option string).
Hypothesis not_skipped : skipped info = false.
Hypothesis compatible : method_compatible info reqMethod.

(** A candidate rule reaches the URL test. *)
Lemma candidate_reaches_url_test :
  Mocker.loop_body info reqUrl (or_default reqMethod "get")
  = (let* tested :=
       match MockItem.url info with
       | JRegExp r => test r reqUrl
       | _ => Normal false
       end in
     if tested then Normal (Return info)
     else
       let* u := ToString (MockItem.url info) in
       if negb (indexOf reqUrl u =? -1)%Z then Normal (Return info)
       else Normal Continue).
Proof.
  unfold Mocker.loop_body. fold (skipped info). rewrite not_skipped.
  destruct compatible as [m [Hm Hcmp]]. rewrite Hm. cbn [bind].
  destruct Hcmp as [-> | ->].
  - reflexivity.
  - rewrite String.eqb_refl, andb_false_r. reflexivity.
Qed.

(** A plain string matches exactly when the request URL contains it. *)
Lemma url_test_string (s : string) :
  MockItem.url info = JString s ->
  criteria_match info reqUrl reqMethod <-> substring_of s reqUrl.
Proof.
  intros Hu. unfold criteria_match, substring_of.
  rewrite candidate_reaches_url_test, Hu. cbn.
  rewrite <- indexOf_substring.
  destruct (negb (indexOf reqUrl s =? -1)%Z); split; congruence.
Qed.

(** A pattern that tests true matches. *)
Lemma url_test_regexp_true (r : RegExp) :
  MockItem.url info = JRegExp r ->
  test r reqUrl = Normal true ->
  criteria_match info reqUrl reqMethod.
Proof.
  intros Hu Ht. unfold criteria_match.
  rewrite candidate_reaches_url_test, Hu, Ht. reflexivity.
Qed.

(** A pattern that tests false falls through to [indexOf], which searches
    the request URL for the pattern printed as a string. *)
Lemma url_test_regexp_false (r : RegExp) :
  MockItem.url info = JRegExp r ->
  test r reqUrl = Normal false ->
  criteria_match info reqUrl reqMethod
  <-> substring_of ("/" ++ source r ++ "/" ++ flags r) reqUrl.
Proof.
  intros Hu Ht. unfold criteria_match, substring_of.
  rewrite candidate_reaches_url_test, Hu, Ht. cbn.
  rewrite <- indexOf_substring.
  destruct (negb _); split; congruence.
Qed.

End UrlTest.

(** C4. The URL test on a pattern: the rule [/api$/] for [get] is a
    candidate for the request [get http://h/api$/x], its pattern tests true on
    [http://h/api] and false on [http://h/api$/x], and [matchMockItem] still
    returns the rule for the latter, because that URL contains the text
    [/api$/]. *)
Theorem regexp_rule_matches_on_its_text :
  let info := rule (JRegExp re_api) "get" 200 in
  skipped info = false
  /\ method_compatible info (Some "get")
  /\ test re_api "http://h/api" = Normal true
  /\ test re_api "http://h/api$/x" = Normal false
  /\ Mocker.matchMockItem (registry [info]) "http://h/api$/x" (Some "get") = Normal (Some info).
Proof.
  intros info. split; [reflexivity|]. split; [|repeat split].
  exists "get". split; [reflexivity | now right].
Qed.

(** ** reset *)

Lemma reset_unchanged (construct : MockItem.t -> MockItem.t) (this : Mocker.t) :
  Mocker.reset construct this = this.
Proof. reflexivity. Qed.

(** C5. [reset] on a registry that holds the rule [/api/user] for [get]:
    the rule is still there, and [matchMockItem] still returns it. *)
Theorem reset_keeps_rules :
  let item := rule (JString "/api/user") "get" 200 in
  let this := registry [item] in
  Mocker.mockConfigData (Mocker.reset new_MockItem this) = [("/api/user-get", item)]
  /\ Mocker.matchMockItem (Mocker.reset new_MockItem this) "/api/user" (Some "get")
     = Normal (Some item).
Proof. split; reflexivity. Qed.

(** ** Registration *)

Section Register.

Variable construct : MockItem.t -> MockItem.t.

Lemma mock_registers (this : Mocker.t) (info : MockItem.t) (k : string) :
  MockItem.key (construct info) = Some k -> k <> "" ->
  Mocker.mock construct this info
  = (Mocker.addMockItem this k (construct info), Some (construct info)).
Proof.
  intros Hk Hne. unfold Mocker.mock, Mocker.no_key. rewrite Hk.
  apply String.eqb_neq in Hne. now rewrite Hne.
Qed.

(** C6. Registration failure is a value: when the constructed item has no
    key, [mock] returns [false] and the registry is the one it was called on;
    when it has one, [mock] returns the item and the registry holds it under
    that key.  [mock] is a total function: no call of it raises. *)
Theorem mock_failure_is_a_value (this : Mocker.t) (info : MockItem.t) :
  (Mocker.no_key (construct info) = true ->
   Mocker.mock construct this info = (this, None))
  /\ (Mocker.no_key (construct info) = false ->
      exists k, MockItem.key (construct info) = Some k
        /\ Mocker.mock construct this info
           = (Mocker.addMockItem this k (construct info), Some (construct info))
        /\ get_property (Mocker.mockConfigData (fst (Mocker.mock construct this info))) k
           = Some (construct info)).
Proof.
  split.
  - intros H. unfold Mocker.mock. now rewrite H.
  - intros H. unfold Mocker.no_key in H.
    destruct (MockItem.key (construct info)) as [k|] eqn:Hk; [|discriminate].
    apply String.eqb_neq in H. exists k. split; [reflexivity|].
    rewrite (mock_registers this info k Hk H). split; [reflexivity|].
    apply get_set_property.
Qed.

Lemma mock_NoDup (this : Mocker.t) (info : MockItem.t) :
  derives_named construct info ->
  List.NoDup (map fst (Mocker.mockConfigData this)) ->
  List.NoDup (map fst (Mocker.mockConfigData (fst (Mocker.mock construct this info)))).
Proof.
  intros Hn H. unfold Mocker.mock, Mocker.no_key.
  destruct (MockItem.key (construct info)) as [k|] eqn:Hk; [|exact H].
  destruct (String.eqb k ""); [exact H|].
  cbn. apply set_property_NoDup; [now apply Hn | exact H].
Qed.

Lemma mock_key_at (this : Mocker.t) (info : MockItem.t) (i : nat) (k0 : string) :
  derives_named construct info ->
  fst <$> Mocker.mockConfigData this !! i = Some k0 ->
  fst <$> Mocker.mockConfigData (fst (Mocker.mock construct this info)) !! i = Some k0.
Proof.
  intros Hn H. unfold Mocker.mock, Mocker.no_key.
  destruct (MockItem.key (construct info)) as [k|] eqn:Hk; [|exact H].
  destruct (String.eqb k ""); [exact H|].
  cbn. apply set_property_key_at; [now apply Hn | exact H].
Qed.

(** Registering a list of specifications one after the other. *)
Lemma mocks_keep (between : list MockItem.t) (this : Mocker.t) (i : nat) (k0 : string) :
  Forall (derives_named construct) between ->
  List.NoDup (map fst (Mocker.mockConfigData this)) ->
  fst <$> Mocker.mockConfigData this !! i = Some k0 ->
  let after := fold_left (fun s info => fst (Mocker.mock construct s info)) between this in
  List.NoDup (map fst (Mocker.mockConfigData after))
  /\ fst <$> Mocker.mockConfigData after !! i = Some k0.
Proof.
  intros Hb. revert this.
  induction Hb as [|info between Hn _ IH]; intros this Hnd Hi; [now split|].
  cbn [fold_left]. apply IH; [now apply mock_NoDup | now apply mock_key_at].
Qed.

(** C8. Replace, not duplicate: take two registrations that derive the same
    key, with any other registrations between them, all under keys that are
    not array indices (a key is computed from a url and a method name).  After
    the second one the registry has the keys it had before it, in the same
    order; exactly one rule is under the key and it is the second item; that
    rule stands at the position the first registration gave the key; and a
    later [matchMockItem] that returns the rule under the key returns the
    second item. *)
Theorem same_key_replaces (this : Mocker.t) (info1 info2 : MockItem.t)
    (between : list MockItem.t) (k : string) :
  MockItem.key (construct info1) = Some k ->
  MockItem.key (construct info2) = Some k ->
  k <> "" ->
  array_index k = None ->
  Forall (derives_named construct) between ->
  List.NoDup (map fst (Mocker.mockConfigData this)) ->
  let this1 := fst (Mocker.mock construct this info1) in
  let mid := fold_left (fun s info => fst (Mocker.mock construct s info)) between this1 in
  let this2 := fst (Mocker.mock construct mid info2) in
  map fst (Mocker.mockConfigData this2) = map fst (Mocker.mockConfigData mid)
  /\ count_key (Mocker.mockConfigData this2) k = 1%nat
  /\ get_property (Mocker.mockConfigData this2) k = Some (construct info2)
  /\ (exists i, Mocker.mockConfigData this1 !! i = Some (k, construct info1)
                /\ Mocker.mockConfigData this2 !! i = Some (k, construct info2))
  /\ (forall reqUrl reqMethod r,
        Mocker.matchMockItem this2 reqUrl reqMethod = Normal (Some r) ->
        exists k', In (k', r) (Mocker.mockConfigData this2)
          /\ (k' = k -> r = construct info2)
          /\ (k' <> k -> In (k', r) (Mocker.mockConfigData mid))).
Proof.
  intros Hk1 Hk2 Hne Hidx Hbetween Hnd this1 mid this2.
  assert (derives_named construct info1) as Hn1.
  { intros k0 H0. rewrite Hk1 in H0. now injection H0 as <-. }
  assert (List.NoDup (map fst (Mocker.mockConfigData this1))) as Hnd1
    by (subst this1; now apply mock_NoDup).
  assert (exists i, Mocker.mockConfigData this1 !! i = Some (k, construct info1)) as [i Hi].
  { subst this1. rewrite (mock_registers this info1 k Hk1 Hne).
    cbn [fst Mocker.addMockItem Mocker.mockConfigData].
    set (o1 := set_property (Mocker.mockConfigData this) k (construct info1)).
    assert (get_property o1 k = Some (construct info1)) as Hg by apply get_set_property.
    assert (In (k, construct info1) o1) as Hin.
    { clear -Hg. induction o1 as [|[k' v'] o IH]; [discriminate|]. simpl in Hg.
      destruct (String.eqb k' k) eqn:E.
      - apply String.eqb_eq in E. injection Hg as ->. subst. now left.
      - right. now apply IH. }
    now apply list_elem_of_In, list_elem_of_lookup in Hin. }
  destruct (mocks_keep between this1 i k Hbetween Hnd1) as [Hndm Hkm]; [now rewrite Hi|].
  fold mid in Hndm, Hkm.
  destruct (Mocker.mockConfigData mid !! i) as [[km vm]|] eqn:Hmid; [|discriminate].
  injection Hkm as ->.
  assert (In k (map fst (Mocker.mockConfigData mid))) as Hinm.
  { apply in_map_iff. exists (k, vm). split; [reflexivity|].
    apply list_elem_of_In, list_elem_of_lookup. now exists i. }
  subst this2. rewrite (mock_registers mid info2 k Hk2 Hne).
  cbn [fst Mocker.addMockItem Mocker.mockConfigData].
  split; [now apply set_property_keys_present|].
  split.
  { apply count_key_NoDup; [now apply set_property_NoDup | now apply set_property_has_key]. }
  split; [apply get_set_property|].
  split.
  { exists i. split; [exact Hi|]. now apply (set_property_position _ k _ Hidx vm). }
  intros reqUrl reqMethod r Hm. unfold Mocker.matchMockItem in Hm. cbn in Hm.
  destruct (Mocker.disabled mid); [discriminate|].
  apply for_in_returns in Hm as [[k' Hin] _]. exists k'. split; [exact Hin|].
  apply set_property_entries in Hin as [[-> ->]|[Hk' Hin]]; [| |exact Hidx|exact Hndm].
  - split; [reflexivity | contradiction].
  - split; [contradiction | intros _; exact Hin].
Qed.

End Register.

Lemma mock_failure_is_a_value_witness :
  let this := registry [rule (JString "/a") "get" 200] in
  let keyless :=
      {| MockItem.key := None; MockItem.url := JUndefined; MockItem.method := JString "get";
         MockItem.body := JString "ok"; MockItem.delay := None; MockItem.status := None;
         MockItem.header := None; MockItem.times := None; MockItem.disable := JUndefined |} in
  let keyed :=
      {| MockItem.key := None; MockItem.url := JString "/b"; MockItem.method := JString "POST";
         MockItem.body := JString "ok"; MockItem.delay := None; MockItem.status := None;
         MockItem.header := None; MockItem.times := None; MockItem.disable := JUndefined |} in
  Mocker.mock new_MockItem this keyless = (this, None)
  /\ exists k, MockItem.key (new_MockItem keyed) = Some k
       /\ Mocker.mock new_MockItem this keyed
          = (Mocker.addMockItem this k (new_MockItem keyed), Some (new_MockItem keyed))
       /\ get_property (Mocker.mockConfigData (fst (Mocker.mock new_MockItem this keyed))) k
          = Some (new_MockItem keyed).
Proof.
  intros this keyless keyed. split.
  - apply (proj1 (mock_failure_is_a_value new_MockItem this keyless)). reflexivity.
  - apply (proj2 (mock_failure_is_a_value new_MockItem this keyed)). reflexivity.
Defined.

Lemma same_key_replaces_witness :
  let this := registry [rule (JString "/b") "get" 200] in
  let spec (u : string) (st : Z) :=
      {| MockItem.key := None; MockItem.url := JString u; MockItem.method := JString "get";
         MockItem.body := JString "ok"; MockItem.delay := None; MockItem.status := Some st;
         MockItem.header := None; MockItem.times := None; MockItem.disable := JUndefined |} in
  let this1 := fst (Mocker.mock new_MockItem this (spec "/a" 201%Z)) in
  let mid := fst (Mocker.mock new_MockItem this1 (spec "/c" 200%Z)) in
  let this2 := fst (Mocker.mock new_MockItem mid (spec "/a" 500%Z)) in
  Mocker.mockConfigData this2
  = [("/b-get", rule (JString "/b") "get" 200);
     ("/a-get", rule (JString "/a") "get" 500);
     ("/c-get", rule (JString "/c") "get" 200)]
  /\ count_key (Mocker.mockConfigData this2) "/a-get" = 1%nat
  /\ get_property (Mocker.mockConfigData this2) "/a-get" = Some (new_MockItem (spec "/a" 500%Z))
  /\ Mocker.matchMockItem this2 "/a" None = Normal (Some (rule (JString "/a") "get" 500)).
Proof.
  intros this spec this1 mid this2. split; [reflexivity|].
  assert (List.NoDup (map fst (Mocker.mockConfigData this))) as Hnd.
  { simpl. constructor; [intros []|constructor]. }
  assert (Forall (derives_named new_MockItem) [spec "/c" 200%Z]) as Hbetween.
  { constructor; [|constructor]. intros k0 H0. cbn in H0. injection H0 as <-. reflexivity. }
  destruct (same_key_replaces new_MockItem this (spec "/a" 201%Z) (spec "/a" 500%Z)
              [spec "/c" 200%Z] "/a-get" eq_refl eq_refl ltac:(discriminate) eq_refl
              Hbetween Hnd)
    as (_ & Hcount & Hget & _).
  split; [exact Hcount|]. split; [exact Hget | reflexivity].
Defined.

(** ** The per-method helpers *)

Lemma derived_key_not_empty (u m : string) : String.eqb (u ++ "-" ++ m) "" = false.
Proof. destruct u; reflexivity. Qed.

Lemma mock_new_MockItem (this : Mocker.t) (info : MockItem.t) (u m : string) :
  url_text (MockItem.url info) = Some u ->
  normalize_method (MockItem.method info) = Some m ->
  fst (Mocker.mock new_MockItem this info)
  = Mocker.addMockItem this (u ++ "-" ++ m) (new_MockItem info)
  /\ MockItem.method (new_MockItem info) = JString m
  /\ MockItem.delay (new_MockItem info) = Some (default 0%Z (MockItem.delay info))
  /\ MockItem.status (new_MockItem info) = Some (default 200%Z (MockItem.status info))
  /\ MockItem.times (new_MockItem info) = Some (default Infinity (MockItem.times info))
  /\ MockItem.header (new_MockItem info) = Some (default [] (MockItem.header info)).
Proof.
  intros Hu Hm. unfold Mocker.mock, Mocker.no_key, new_MockItem. rewrite Hu, Hm.
  cbn [MockItem.key MockItem.method MockItem.delay MockItem.status MockItem.times
       MockItem.header default].
  rewrite derived_key_not_empty. repeat split.
Qed.

Lemma supplied_default {A : Type} (field : MockItemExt -> option A) (opts : option MockItemExt)
    (d : A) :
  field Mocker.default_opts = Some d ->
  supplied field opts = None ->
  default d (field (Mocker.param_or_default opts)) = d.
Proof.
  intros Hd Hs. destruct opts as [o|]; simpl in *.
  - now rewrite Hs.
  - now rewrite Hd.
Qed.

(** What a helper hands to [mock], for any constructor: the defaults when the
    options object is left out, and otherwise the options object's own fields,
    [undefined] where it has none. *)
Lemma get_without_opts (construct : MockItem.t -> MockItem.t) (this : Mocker.t)
    (url body : JsValue) :
  Mocker.get construct this url body None
  = fst (Mocker.mock construct this
           {| MockItem.key := None; MockItem.url := url; MockItem.method := JString "get";
              MockItem.body := body; MockItem.delay := Some 0%Z;
              MockItem.status := Some 200%Z; MockItem.header := Some [];
              MockItem.times := Some Infinity; MockItem.disable := JUndefined |}).
Proof. reflexivity. Qed.

Lemma get_with_opts (construct : MockItem.t -> MockItem.t) (this : Mocker.t)
    (url body : JsValue) (o : MockItemExt) :
  Mocker.get construct this url body (Some o)
  = fst (Mocker.mock construct this
           {| MockItem.key := None; MockItem.url := url; MockItem.method := JString "get";
              MockItem.body := body; MockItem.delay := ext_delay o;
              MockItem.status := ext_status o; MockItem.header := ext_header o;
              MockItem.times := ext_times o; MockItem.disable := JUndefined |}).
Proof. reflexivity. Qed.

(** C9. Defaults of the per-method helpers: when the url gives a key, the
    helper registers under that key a rule whose method is the helper's, and
    every option among delay, status, times and header that the caller has not
    supplied has its default in that rule: 0, 200, unbounded and empty. *)
Theorem helper_defaults (h : Helper) (this : Mocker.t) (url body : JsValue)
    (opts : option MockItemExt) (u : string) :
  url_text url = Some u ->
  exists item,
    get_property (Mocker.mockConfigData (call_helper h this url body opts))
      (u ++ "-" ++ helper_method h) = Some item
    /\ MockItem.method item = JString (helper_method h)
    /\ (supplied ext_delay opts = None -> MockItem.delay item = Some 0%Z)
    /\ (supplied ext_status opts = None -> MockItem.status item = Some 200%Z)
    /\ (supplied ext_times opts = None -> MockItem.times item = Some Infinity)
    /\ (supplied ext_header opts = None -> MockItem.header item = Some []).
Proof.
  intros Hu.
  destruct h; cbn [call_helper helper_method];
    unfold Mocker.get, Mocker.post, Mocker.put, Mocker.patch, Mocker.delete,
           Mocker.head, Mocker.any;
    match goal with
    | |- context [Mocker.mock new_MockItem this ?info] =>
        destruct (mock_new_MockItem this info u
                    (default "" (normalize_method (MockItem.method info))) Hu eq_refl)
          as (Hreg & Hm & Hd & Hs & Ht & Hh);
        exists (new_MockItem info); rewrite Hreg
    end;
    (split; [apply get_set_property|]);
    (split; [exact Hm|]);
    (split; [intros Hn; rewrite Hd; f_equal; now apply supplied_default|]);
    (split; [intros Hn; rewrite Hs; f_equal; now apply supplied_default|]);
    (split; [intros Hn; rewrite Ht; f_equal; now apply supplied_default|]);
    (intros Hn; rewrite Hh; f_equal; now apply supplied_default).
Qed.

Lemma helper_defaults_witness :
  let only_status :=
      {| ext_delay := None; ext_status := Some 404%Z; ext_times := None; ext_header := None |} in
  let this := registry [] in
  (exists item,
     get_property (Mocker.mockConfigData (call_helper Post this (JString "/a") (JString "b") None))
       "/a-post" = Some item
     /\ MockItem.method item = JString "post"
     /\ MockItem.delay item = Some 0%Z /\ MockItem.status item = Some 200%Z
     /\ MockItem.times item = Some Infinity /\ MockItem.header item = Some [])
  /\ (exists item,
     get_property
       (Mocker.mockConfigData
          (call_helper Head this (JRegExp re_api) JUndefined (Some only_status)))
       "/api$/-head" = Some item
     /\ MockItem.method item = JString "head"
     /\ MockItem.delay item = Some 0%Z /\ MockItem.status item = Some 404%Z
     /\ MockItem.times item = Some Infinity /\ MockItem.header item = Some []).
Proof.
  intros only_status this. split.
  - destruct (helper_defaults Post this (JString "/a") (JString "b") None "/a" eq_refl)
      as (item & Hget & Hm & Hd & Hs & Ht & Hh).
    exists item. split; [exact Hget|]. split; [exact Hm|].
    split; [exact (Hd eq_refl)|]. split; [exact (Hs eq_refl)|].
    split; [exact (Ht eq_refl) | exact (Hh eq_refl)].
  - destruct (helper_defaults Head this (JRegExp re_api) JUndefined (Some only_status)
                "/api$/" eq_refl)
      as (item & Hget & Hm & Hd & Hs & Ht & Hh).
    exists item. split; [exact Hget|]. split; [exact Hm|].
    split; [exact (Hd eq_refl)|].
    split; [cbn in Hget; injection Hget as <-; reflexivity|].
    split; [exact (Ht eq_refl) | exact (Hh eq_refl)].
Defined.

(** ** The single instance *)

Lemma call_keeps_instance (m : Mocker.t -> Mocker.t) (h : Mocker.handle) (w : Mocker.World) :
  Mocker.instance (Mocker.call m h w) = Mocker.instance w.
Proof. reflexivity. Qed.

Lemma calls_keep_instance (calls : list (Mocker.handle * (Mocker.t -> Mocker.t)))
    (w : Mocker.World) :
  Mocker.instance (fold_left (fun w' c => Mocker.call (snd c) (fst c) w') calls w)
  = Mocker.instance w.
Proof.
  revert w. induction calls as [|c calls IH]; intros w; [reflexivity|].
  cbn [fold_left]. now rewrite IH.
Qed.

Lemma new_sets_instance (w : Mocker.World) :
  Mocker.instance (snd (Mocker.new w)) = Some (fst (Mocker.new w)).
Proof. unfold Mocker.new. destruct (Mocker.instance w) eqn:E; [exact E | reflexivity]. Qed.

Lemma new_returns_instance (w : Mocker.World) (h : Mocker.handle) :
  Mocker.instance w = Some h -> Mocker.new w = (h, w).
Proof. intros H. unfold Mocker.new. now rewrite H. Qed.

(** C10. One instance: after a first construction, and after any calls of
    methods on any handles, a construction through the constructor or through
    [getInstance] returns the handle of the first one and leaves every object
    as it is, so the rules, the global switch and the log toggle read through
    the new handle are those behind the first handle; no fresh empty registry
    is made. *)
Theorem one_instance (w : Mocker.World)
    (calls : list (Mocker.handle * (Mocker.t -> Mocker.t))) :
  let h1 := fst (Mocker.new w) in
  let w1 := snd (Mocker.new w) in
  let w2 := fold_left (fun w' c => Mocker.call (snd c) (fst c) w') calls w1 in
  Mocker.new w2 = (h1, w2)
  /\ Mocker.getInstance w2 = (h1, w2)
  /\ Mocker.deref (snd (Mocker.getInstance w2)) (fst (Mocker.getInstance w2))
     = Mocker.deref w2 h1.
Proof.
  intros h1 w1 w2.
  assert (Mocker.instance w2 = Some h1) as H.
  { subst w2. rewrite calls_keep_instance. apply new_sets_instance. }
  unfold Mocker.getInstance. rewrite (new_returns_instance w2 h1 H).
  repeat split.
Qed.

(** A second construction sees the rule registered and the switch turned off
    through the first handle. *)
Example second_construction_shares_state :
  let h1 := fst (Mocker.new empty_world) in
  let w1 := snd (Mocker.new empty_world) in
  let w2 := Mocker.call Mocker.disable h1
              (Mocker.call (fun o => Mocker.get new_MockItem o (JString "/a") (JString "b") None)
                 h1 w1) in
  let h2 := fst (Mocker.getInstance w2) in
  h2 = h1
  /\ (Mocker.mockConfigData <$> Mocker.deref (snd (Mocker.getInstance w2)) h2)
     = Some [("/a-get", new_MockItem
                {| MockItem.key := None; MockItem.url := JString "/a";
                   MockItem.method := JString "get"; MockItem.body := JString "b";
                   MockItem.delay := Some 0%Z; MockItem.status := Some 200%Z;
                   MockItem.header := Some []; MockItem.times := Some Infinity;
                   MockItem.disable := JUndefined |})]
  /\ (Mocker.disabled <$> Mocker.deref (snd (Mocker.getInstance w2)) h2) = Some true.
Proof. repeat split. Qed.

(** * Further properties of the registry *)

Lemma set_property_twice (o : list (string * MockItem.t)) (k : string) (v : MockItem.t) :
  set_property (set_property o k v) k v = set_property o k v.
Proof.
  induction o as [|[k' v'] o IH]; cbn [set_property].
  - now rewrite String.eqb_refl.
  - destruct (String.eqb k' k) eqn:E.
    + cbn [set_property]. now rewrite String.eqb_refl.
    + destruct (comes_before k k') eqn:B; cbn [set_property].
      * now rewrite String.eqb_refl.
      * now rewrite E, B, IH.
Qed.

Lemma get_set_property_other (o : list (string * MockItem.t)) (k k' : string) (v : MockItem.t) :
  k' <> k -> get_property (set_property o k v) k' = get_property o k'.
Proof.
  intros Hne.
  assert (String.eqb k k' = false) as Hkk by (apply String.eqb_neq; congruence).
  induction o as [|[k0 v0] o IH]; cbn [set_property].
  - simpl. now rewrite Hkk.
  - destruct (String.eqb k0 k) eqn:E.
    + apply String.eqb_eq in E. subst k0. simpl. now rewrite Hkk.
    + destruct (comes_before k k0); simpl.
      * now rewrite Hkk.
      * destruct (String.eqb k0 k'); [reflexivity | exact IH].
Qed.

Section RegistryExtras.

Variable construct : MockItem.t -> MockItem.t.

Lemma mock_cases (this : Mocker.t) (info : MockItem.t) :
  (Mocker.no_key (construct info) = true /\ Mocker.mock construct this info = (this, None))
  \/ (exists k, MockItem.key (construct info) = Some k /\ k <> ""
        /\ Mocker.mock construct this info
           = (Mocker.addMockItem this k (construct info), Some (construct info))).
Proof.
  unfold Mocker.mock. destruct (Mocker.no_key (construct info)) eqn:E; [now left|].
  right. unfold Mocker.no_key in E.
  destruct (MockItem.key (construct info)) as [k|]; [|discriminate].
  exists k. apply String.eqb_neq in E. repeat split. exact E.
Qed.

(** X1. Registering the same specification a second time changes nothing:
    the registry after the second call is the one after the first, and both
    calls return the same value. *)
Theorem mock_idempotent (this : Mocker.t) (info : MockItem.t) :
  Mocker.mock construct (fst (Mocker.mock construct this info)) info
  = Mocker.mock construct this info.
Proof.
  destruct (mock_cases this info) as [[Hno H]|(k & Hk & Hne & H)].
  - rewrite H. exact H.
  - rewrite H. cbn [fst]. unfold Mocker.mock, Mocker.no_key. rewrite Hk.
    apply String.eqb_neq in Hne. rewrite Hne. cbn [default].
    unfold Mocker.addMockItem. cbn [Mocker.mockConfigData Mocker.disabled Mocker.log].
    now rewrite set_property_twice.
Qed.

Lemma mock_other_key (this : Mocker.t) (info : MockItem.t) (k' : string) :
  MockItem.key (construct info) <> Some k' ->
  get_property (Mocker.mockConfigData (fst (Mocker.mock construct this info))) k'
  = get_property (Mocker.mockConfigData this) k'.
Proof.
  intros Hk'. destruct (mock_cases this info) as [[Hno H]|(k & Hk & Hne & H)];
    rewrite H; cbn [fst]; [reflexivity|].
  cbn. apply get_set_property_other. congruence.
Qed.

Lemma mock_switches (this : Mocker.t) (info : MockItem.t) :
  Mocker.disabled (fst (Mocker.mock construct this info)) = Mocker.disabled this
  /\ Mocker.log (fst (Mocker.mock construct this info)) = Mocker.log this.
Proof.
  destruct (mock_cases this info) as [[Hno H]|(k & Hk & Hne & H)]; rewrite H; now split.
Qed.

(** X2. A registration touches its own key only: the rule under every other
    key is the one that was there, and the global switch and the log toggle
    are unchanged. *)
Theorem mock_touches_its_key_only (this : Mocker.t) (info : MockItem.t) (k' : string) :
  MockItem.key (construct info) <> Some k' ->
  let after := fst (Mocker.mock construct this info) in
  get_property (Mocker.mockConfigData after) k' = get_property (Mocker.mockConfigData this) k'
  /\ Mocker.disabled after = Mocker.disabled this
  /\ Mocker.log after = Mocker.log this.
Proof.
  intros Hk' after. split; [now apply mock_other_key | apply mock_switches].
Qed.

Lemma setMockData_cons (this : Mocker.t) (e : string * MockItem.t)
    (entries : list (string * MockItem.t)) :
  Mocker.setMockData construct this (e :: entries)
  = Mocker.setMockData construct (fst (Mocker.mock construct this (snd e))) entries.
Proof. reflexivity. Qed.

Lemma setMockData_app (this : Mocker.t) (a b : list (string * MockItem.t)) :
  Mocker.setMockData construct this (a ++ b)
  = Mocker.setMockData construct (Mocker.setMockData construct this a) b.
Proof. unfold Mocker.setMockData. apply fold_left_app. Qed.

(** X3. Bulk registration under keys that are not array indices only adds at
    the end or replaces in place: a key that stands at a position of the
    registry before [setMockData] stands at the same position after it, and
    the global switch and the log toggle are unchanged. *)
Theorem setMockData_keeps_positions (this : Mocker.t) (entries : list (string * MockItem.t))
    (i : nat) (k0 : string) :
  Forall (fun e => derives_named construct (snd e)) entries ->
  fst <$> Mocker.mockConfigData this !! i = Some k0 ->
  let after := Mocker.setMockData construct this entries in
  fst <$> Mocker.mockConfigData after !! i = Some k0
  /\ Mocker.disabled after = Mocker.disabled this
  /\ Mocker.log after = Mocker.log this.
Proof.
  intros Hn. revert this.
  induction Hn as [|e entries He _ IH]; intros this Hi; [now repeat split|].
  cbn zeta. rewrite setMockData_cons.
  destruct (IH (fst (Mocker.mock construct this (snd e)))) as (H1 & H2 & H3).
  - destruct (mock_cases this (snd e)) as [[_ H]|(k & Hk & _ & H)]; rewrite H; cbn [fst];
      [exact Hi | apply set_property_key_at; [now apply He | exact Hi]].
  - split; [exact H1|].
    rewrite H2, H3. apply mock_switches.
Qed.

Lemma setMockData_other_keys (entries : list (string * MockItem.t)) (this : Mocker.t)
    (k : string) :
  Forall (fun e => MockItem.key (construct (snd e)) <> Some k) entries ->
  get_property (Mocker.mockConfigData (Mocker.setMockData construct this entries)) k
  = get_property (Mocker.mockConfigData this) k.
Proof.
  intros H. revert this. induction H as [|e entries He _ IH]; intros this; [reflexivity|].
  rewrite setMockData_cons, IH.
  now apply mock_other_key.
Qed.

(** X4. In a bulk registration the last entry that derives a key wins: the
    registry holds the item built from it under that key, whatever the
    entries before it were and whatever name the entry has in the mapping. *)
Theorem setMockData_last_wins (this : Mocker.t) (pre post : list (string * MockItem.t))
    (name k : string) (info : MockItem.t) :
  MockItem.key (construct info) = Some k ->
  k <> "" ->
  Forall (fun e => MockItem.key (construct (snd e)) <> Some k) post ->
  get_property
    (Mocker.mockConfigData (Mocker.setMockData construct this (pre ++ (name, info) :: post))) k
  = Some (construct info).
Proof.
  intros Hk Hne Hpost. rewrite setMockData_app, setMockData_cons. cbn [snd].
  rewrite setMockData_other_keys by exact Hpost.
  rewrite (mock_registers construct _ info k Hk Hne). cbn. apply get_set_property.
Qed.

Lemma for_in_app_found (o extra : list (string * MockItem.t)) (reqUrl rm : string)
    (r : MockItem.t) :
  for_in o (guarded reqUrl rm) = Normal (Some r) ->
  for_in (o ++ extra) (guarded reqUrl rm) = Normal (Some r).
Proof.
  induction o as [|[k info] o IH]; [discriminate|].
  cbn [app for_in]. destruct (guarded reqUrl rm info) as [[|r']|e]; auto.
Qed.

(** X5. A new key that is not an array index cannot shadow an older rule:
    when a request has a match and a specification is registered under such a
    key, which the registry does not have yet, the request keeps the match it
    had. *)
Theorem new_key_keeps_matches (this : Mocker.t) (info : MockItem.t) (k : string)
    (reqUrl : string) (reqMethod : option string) (r : MockItem.t) :
  MockItem.key (construct info) = Some k ->
  array_index k = None ->
  ~ In k (map fst (Mocker.mockConfigData this)) ->
  Mocker.matchMockItem this reqUrl reqMethod = Normal (Some r) ->
  Mocker.matchMockItem (fst (Mocker.mock construct this info)) reqUrl reqMethod
  = Normal (Some r).
Proof.
  intros Hk Hidx Hnew Hm.
  destruct (mock_cases this info) as [[_ H]|(k1 & Hk1 & _ & H)]; rewrite H; cbn [fst];
    [exact Hm|].
  assert (k1 = k) as -> by congruence.
  unfold Mocker.matchMockItem in *. cbn.
  destruct (Mocker.disabled this); [discriminate|].
  rewrite (set_property_new _ k _ Hidx Hnew).
  now apply for_in_app_found.
Qed.

End RegistryExtras.

Lemma mock_touches_its_key_only_witness :
  let this := Mocker.disable (registry [rule (JString "/a") "get" 200]) in
  let after := fst (Mocker.mock new_MockItem this (get_spec "/b" 500)) in
  get_property (Mocker.mockConfigData after) "/a-get" = Some (rule (JString "/a") "get" 200)
  /\ Mocker.disabled after = true
  /\ Mocker.log after = false.
Proof.
  intros this after.
  destruct (mock_touches_its_key_only new_MockItem this (get_spec "/b" 500) "/a-get")
    as (Hget & Hd & Hl); [discriminate|].
  fold after in Hget, Hd, Hl.
  split; [rewrite Hget; reflexivity|]. split; [rewrite Hd; reflexivity | rewrite Hl; reflexivity].
Defined.

Lemma setMockData_keeps_positions_witness :
  let this := registry [rule (JString "/a") "get" 200; rule (JString "/b") "get" 200] in
  let after := Mocker.setMockData new_MockItem this
                 [("first", get_spec "/b" 500); ("second", get_spec "/c" 200);
                  ("third", rejected)] in
  map fst (Mocker.mockConfigData after) = ["/a-get"; "/b-get"; "/c-get"]
  /\ fst <$> Mocker.mockConfigData after !! 1%nat = Some "/b-get"
  /\ Mocker.disabled after = false
  /\ Mocker.log after = false.
Proof.
  intros this after. split; [reflexivity|].
  apply (setMockData_keeps_positions new_MockItem this
           [("first", get_spec "/b" 500); ("second", get_spec "/c" 200); ("third", rejected)]
           1 "/b-get").
  - repeat constructor; intros k0 H0; cbn in H0; try discriminate H0;
      injection H0 as <-; reflexivity.
  - reflexivity.
Defined.

Lemma setMockData_last_wins_witness :
  get_property
    (Mocker.mockConfigData
       (Mocker.setMockData new_MockItem (registry [])
          [("x", get_spec "/a" 200); ("y", get_spec "/a" 500); ("z", get_spec "/b" 404)]))
    "/a-get"
  = Some (rule (JString "/a") "get" 500).
Proof.
  apply (setMockData_last_wins new_MockItem (registry []) [("x", get_spec "/a" 200)]
           [("z", get_spec "/b" 404)] "y" "/a-get" (get_spec "/a" 500)).
  - reflexivity.
  - discriminate.
  - constructor; [discriminate | constructor].
Defined.

Lemma new_key_keeps_matches_witness :
  let this := registry [rule (JString "/api") "get" 200] in
  Mocker.matchMockItem (fst (Mocker.mock new_MockItem this (get_spec "/api/user" 500)))
    "/api/user" None
  = Normal (Some (rule (JString "/api") "get" 200)).
Proof.
  intros this.
  apply (new_key_keeps_matches new_MockItem this (get_spec "/api/user" 500) "/api/user-get").
  - reflexivity.
  - reflexivity.
  - simpl. intros [H|[]]. discriminate H.
  - reflexivity.
Defined.

(** ** What [matchMockItem] returns *)

Lemma toLowerCase_any_compatible (m rm : string) :
  negb (String.eqb (toLowerCase m) "any") && negb (String.eqb (toLowerCase m) (toLowerCase rm))
  = false ->
  toLowerCase m = "any" \/ toLowerCase m = toLowerCase rm.
Proof.
  intros H. apply andb_false_iff in H as [H|H]; apply negb_false_iff, String.eqb_eq in H; auto.
Qed.

Lemma loop_body_sound (info : MockItem.t) (reqUrl : string) (reqMethod : option string) :
  criteria_match info reqUrl reqMethod ->
  skipped info = false
  /\ method_compatible info reqMethod
  /\ match MockItem.url info with
     | JString s => substring_of s reqUrl
     | JRegExp re =>
         test re reqUrl = Normal true
         \/ substring_of ("/" ++ source re ++ "/" ++ flags re) reqUrl
     | JUndefined => substring_of "undefined" reqUrl
     | JSymbol _ => False
     end.
Proof.
  unfold criteria_match, Mocker.loop_body. fold (skipped info).
  destruct (skipped info); [discriminate|].
  destruct (ToString (MockItem.method info)) as [m|e] eqn:Em; cbn [bind]; [|discriminate].
  destruct (negb _ && negb _) eqn:Ec; [discriminate|].
  apply toLowerCase_any_compatible in Ec.
  intros H. split; [reflexivity|]. split; [now exists m|].
  destruct (MockItem.url info) as [|s|re|d]; cbn in H.
  - apply indexOf_substring. destruct (negb _); [reflexivity | discriminate].
  - apply indexOf_substring. destruct (negb _); [reflexivity | discriminate].
  - destruct (test re reqUrl) as [[|]|e]; cbn in H; [now left | | discriminate].
    right. apply indexOf_substring. destruct (negb _); [reflexivity | discriminate].
  - discriminate.
Qed.

(** X6. [matchMockItem] only returns rules of the registry: a returned rule
    is stored under some key of an enabled registry, and an empty registry
    matches nothing. *)
Theorem match_returns_registered_rule (this : Mocker.t) (reqUrl : string)
    (reqMethod : option string) :
  (forall r, Mocker.matchMockItem this reqUrl reqMethod = Normal (Some r) ->
     Mocker.disabled this = false /\ exists k, In (k, r) (Mocker.mockConfigData this))
  /\ (Mocker.mockConfigData this = [] ->
      Mocker.matchMockItem this reqUrl reqMethod = Normal None).
Proof.
  split.
  - intros r H. unfold Mocker.matchMockItem in H.
    destruct (Mocker.disabled this); [discriminate|]. split; [reflexivity|].
    now apply for_in_returns in H as [H _].
  - intros H. unfold Mocker.matchMockItem. rewrite H. now destruct (Mocker.disabled this).
Qed.

Lemma match_returns_registered_rule_witness :
  let this := registry [rule (JString "/a") "get" 200] in
  (exists k, In (k, rule (JString "/a") "get" 200) (Mocker.mockConfigData this))
  /\ Mocker.matchMockItem (registry []) "/a" None = Normal None.
Proof.
  intros this. split.
  - apply (proj1 (match_returns_registered_rule this "/a" None)). reflexivity.
  - apply (proj2 (match_returns_registered_rule (registry []) "/a" None)). reflexivity.
Defined.

(** X7. A returned rule fits the request: its method, lower-cased, is [any]
    or the request's method, and its url matcher accepts the request URL: a
    string occurs in it; a pattern tests true on it or occurs in it as printed
    text. *)
Theorem match_result_fits_request (this : Mocker.t) (reqUrl : string)
    (reqMethod : option string) (r : MockItem.t) :
  Mocker.matchMockItem this reqUrl reqMethod = Normal (Some r) ->
  method_compatible r reqMethod
  /\ (forall s, MockItem.url r = JString s -> substring_of s reqUrl)
  /\ (forall re, MockItem.url r = JRegExp re ->
        test re reqUrl = Normal true
        \/ substring_of ("/" ++ source re ++ "/" ++ flags re) reqUrl).
Proof.
  intros H. unfold Mocker.matchMockItem in H.
  destruct (Mocker.disabled this); [discriminate|].
  apply for_in_returns in H as [_ H].
  destruct (loop_body_sound r reqUrl reqMethod H) as (_ & Hm & Hu).
  split; [exact Hm|]. split.
  - intros s Hs. now rewrite Hs in Hu.
  - intros re Hre. now rewrite Hre in Hu.
Qed.

Lemma match_result_fits_request_witness :
  method_compatible (rule (JString "/a") "any" 200) (Some "post")
  /\ substring_of "/a" "http://h/a/b".
Proof.
  destruct (match_result_fits_request (registry [rule (JString "/a") "any" 200])
              "http://h/a/b" (Some "post") (rule (JString "/a") "any" 200) eq_refl)
    as (Hm & Hs & _).
  split; [exact Hm | exact (Hs "/a" eq_refl)].
Defined.

Lemma loop_body_method (info : MockItem.t) (reqUrl rm1 rm2 : string) :
  toLowerCase rm1 = toLowerCase rm2 ->
  Mocker.loop_body info reqUrl rm1 = Mocker.loop_body info reqUrl rm2.
Proof. intros H. unfold Mocker.loop_body. now rewrite H. Qed.

Lemma for_in_ext (o : list (string * MockItem.t)) (f g : MockItem.t -> Completion Flow) :
  (forall info, f info = g info) -> for_in o f = for_in o g.
Proof.
  intros H. induction o as [|[k info] o IH]; [reflexivity|].
  cbn [for_in]. now rewrite H, IH.
Qed.

(** X8. The request method counts without case, and a missing or empty
    method counts as [get]: two calls whose methods, after that default, have
    the same lower-case form return the same result. *)
Theorem request_method_case_insensitive (this : Mocker.t) (reqUrl : string)
    (m1 m2 : option string) :
  toLowerCase (or_default m1 "get") = toLowerCase (or_default m2 "get") ->
  Mocker.matchMockItem this reqUrl m1 = Mocker.matchMockItem this reqUrl m2.
Proof.
  intros H. unfold Mocker.matchMockItem. destruct (Mocker.disabled this); [reflexivity|].
  apply for_in_ext. intros info. now rewrite (loop_body_method info reqUrl _ _ H).
Qed.

Lemma request_method_case_insensitive_witness :
  let this := registry [rule (JString "/a") "get" 200] in
  Mocker.matchMockItem this "/a" (Some "GET") = Mocker.matchMockItem this "/a" None
  /\ Mocker.matchMockItem this "/a" (Some "") = Mocker.matchMockItem this "/a" (Some "Get").
Proof.
  intros this. split.
  - apply (request_method_case_insensitive this "/a" (Some "GET") None). reflexivity.
  - apply (request_method_case_insensitive this "/a" (Some "") (Some "Get")). reflexivity.
Defined.

(** X9. A live rule for [any] (in any letter case) whose url is a string
    answers every method: standing first in an enabled registry, it is
    returned for every request whose URL contains its url, whatever the
    request's method. *)
Theorem any_rule_answers_every_method (this : Mocker.t) (k m s reqUrl : string)
    (info : MockItem.t) (rest : list (string * MockItem.t)) (reqMethod : option string) :
  Mocker.disabled this = false ->
  Mocker.mockConfigData this = (k, info) :: rest ->
  skipped info = false ->
  MockItem.method info = JString m ->
  toLowerCase m = "any" ->
  MockItem.url info = JString s ->
  substring_of s reqUrl ->
  Mocker.matchMockItem this reqUrl reqMethod = Normal (Some info).
Proof.
  intros Hen Hcfg Hs Hm Hany Hu Hsub.
  rewrite matchMockItem_enabled, Hcfg by exact Hen.
  apply (for_in_first_match [] rest k info); [constructor|].
  assert (method_compatible info reqMethod) as Hc.
  { exists m. rewrite Hm. split; [reflexivity | now left]. }
  exact (proj2 (url_test_string info reqUrl reqMethod Hs Hc s Hu) Hsub).
Qed.

Lemma any_rule_answers_every_method_witness :
  let info := rule (JString "/health") "ANY" 204 in
  let this := registry [info; rule (JString "/health") "get" 200] in
  Mocker.matchMockItem this "/health/check" (Some "DELETE") = Normal (Some info)
  /\ Mocker.matchMockItem this "/health/check" None = Normal (Some info).
Proof.
  intros info this.
  assert (substring_of "/health" "/health/check") as Hsub by (now exists "", "/check").
  split.
  - apply (any_rule_answers_every_method this "/health-any" "any" "/health" "/health/check"
             info [("/health-get", rule (JString "/health") "get" 200)] (Some "DELETE"));
      try reflexivity; exact Hsub.
  - apply (any_rule_answers_every_method this "/health-any" "any" "/health" "/health/check"
             info [("/health-get", rule (JString "/health") "get" 200)] None);
      try reflexivity; exact Hsub.
Defined.

(** * Diagnostics *)

Lemma obj_get_assign {V : Type} (o : list (string * V)) (k : string) (v : V) :
  obj_get (obj_assign o k v) k = Some v.
Proof.
  induction o as [|[k' v'] o IH]; simpl.
  - now rewrite String.eqb_refl.
  - destruct (String.eqb k' k) eqn:E; simpl; [now rewrite String.eqb_refl | now rewrite E].
Qed.

Lemma obj_get_assign_other {V : Type} (o : list (string * V)) (k k' : string) (v : V) :
  k' <> k -> obj_get (obj_assign o k v) k' = obj_get o k'.
Proof.
  intros Hne. induction o as [|[k0 v0] o IH]; simpl.
  - apply String.eqb_neq in Hne. rewrite String.eqb_sym. now rewrite Hne.
  - destruct (String.eqb k0 k) eqn:E; simpl.
    + apply String.eqb_eq in E. subst k0.
      assert (String.eqb k k' = false) as -> by (apply String.eqb_neq; congruence).
      reflexivity.
    + destruct (String.eqb k0 k'); [reflexivity | exact IH].
Qed.

Lemma obj_assign_keys_once {V : Type} (o : list (string * V)) (k : string) (v : V) :
  List.NoDup (map fst o) ->
  length (List.filter (fun e => String.eqb (fst e) k) (obj_assign o k v)) = 1%nat.
Proof.
  induction o as [|[k' v'] o IH]; simpl; intros Hnd.
  - now rewrite String.eqb_refl.
  - inversion Hnd as [|? ? Hk' Hnd']; subst.
    destruct (String.eqb k' k) eqn:E; simpl.
    + rewrite String.eqb_refl. simpl. f_equal.
      apply String.eqb_eq in E. subst k'. clear -Hk'.
      induction o as [|[k0 v0] o IH]; [reflexivity|]. simpl in *.
      destruct (String.eqb k0 k) eqn:E0.
      * apply String.eqb_eq in E0. exfalso. apply Hk'. now left.
      * apply IH. intros H. apply Hk'. now right.
    + rewrite E. now apply IH.
Qed.

Lemma groupLog_off (host : Host) (this : Mocker.t) (logs : list LogEntry) :
  can_log host this = false -> groupLog host this logs = [].
Proof.
  unfold can_log, groupLog. intros H.
  destruct (Mocker.log this); [|reflexivity].
  destruct (has_groupCollapsed host); [|reflexivity].
  destruct (has_groupEnd host); [discriminate | reflexivity].
Qed.

Lemma groupLog_on (host : Host) (this : Mocker.t) (logs : list LogEntry) :
  can_log host this = true ->
  groupLog host this logs
  = (GroupCollapsed (entry_args (List.hd (Plain LUndefined) logs))
     :: map (fun e => Log (entry_args e)) (List.tl logs) ++ [GroupEnd])%list.
Proof.
  unfold can_log, groupLog. intros H.
  apply andb_true_iff in H as [H H3]. apply andb_true_iff in H as [H1 H2].
  now rewrite H1, H2, H3.
Qed.

(** X10. [groupLog] writes nothing or one whole group: nothing when logging
    is off or the console lacks [groupCollapsed] or [groupEnd]; otherwise one
    [groupCollapsed], then one [log] for each entry after the first, then one
    [groupEnd], also for an empty array of entries. *)
Theorem groupLog_whole_group (host : Host) (this : Mocker.t) (logs : list LogEntry) :
  (can_log host this = false -> groupLog host this logs = [])
  /\ (can_log host this = true ->
      exists first lines,
        groupLog host this logs = (GroupCollapsed first :: map Log lines ++ [GroupEnd])%list
        /\ length lines = (length logs - 1)%nat).
Proof.
  split; [apply groupLog_off|].
  intros H. rewrite (groupLog_on host this logs H).
  exists (entry_args (List.hd (Plain LUndefined) logs)), (map entry_args (List.tl logs)).
  split.
  - now rewrite map_map.
  - rewrite length_map. destruct logs; simpl; lia.
Qed.

Lemma groupLog_whole_group_witness :
  let browser :=
      {| host_isNodejs := false; currentTime := "12:00:00"; HTTPStatusCodes := fun _ => None;
         has_groupCollapsed := true; has_groupEnd := true |} in
  let plain := {| host_isNodejs := true; currentTime := "12:00:00";
                  HTTPStatusCodes := fun _ => None;
                  has_groupCollapsed := false; has_groupEnd := true |} in
  let this := Mocker.enableLog (registry []) in
  groupLog plain this [Spread [LString "a"]; Plain (LString "b")] = []
  /\ (exists first lines,
        groupLog browser this [] = (GroupCollapsed first :: map Log lines ++ [GroupEnd])%list
        /\ length lines = 0%nat)
  /\ (exists first lines,
        groupLog browser this [Spread [LString "a"]; Plain (LString "b")]
        = (GroupCollapsed first :: map Log lines ++ [GroupEnd])%list
        /\ length lines = 1%nat).
Proof.
  intros browser plain this. split; [|split].
  - apply (proj1 (groupLog_whole_group plain this _)). reflexivity.
  - apply (proj2 (groupLog_whole_group browser this [])). reflexivity.
  - apply (proj2 (groupLog_whole_group browser this [Spread [LString "a"]; Plain (LString "b")])).
    reflexivity.
Defined.

(** X11. The response record of [sendResponseLog]: with logging on it is the
    second line of a group of three lines, and its headers always carry
    [x-powered-by: http-request-mock], once, in place of any header of that
    name the rule has, with the rule's other headers as they are; with logging
    off nothing is written. *)
Theorem sendResponseLog_marks_headers (host : Host) (this : Mocker.t) (spent : Z)
    (body : JsValue) (requestInfo : RequestInfo) (mockItem : MockItem.t) :
  (can_log host this = false ->
   sendResponseLog host this spent body requestInfo mockItem = [])
  /\ (can_log host this = true ->
      exists summary item headers st txt,
        sendResponseLog host this spent body requestInfo mockItem
        = [GroupCollapsed summary;
           Log [LString "Request: "; LRequest requestInfo];
           Log [LString "Response: "; LResponse body spent headers st txt];
           Log item;
           GroupEnd]
        /\ obj_get headers "x-powered-by" = Some "http-request-mock"
        /\ (forall k, k <> "x-powered-by" ->
              obj_get headers k = obj_get (default [] (MockItem.header mockItem)) k)
        /\ (List.NoDup (map fst (default [] (MockItem.header mockItem))) ->
            length (List.filter (fun e => String.eqb (fst e) "x-powered-by") headers) = 1%nat)).
Proof.
  split.
  - intros H. unfold sendResponseLog. now apply groupLog_off.
  - intros H. unfold sendResponseLog. rewrite (groupLog_on _ _ _ H). cbn [List.hd List.tl map app entry_args].
    eexists _, _, (response_headers (MockItem.header mockItem)), _, _.
    split; [reflexivity|]. unfold response_headers. split; [apply obj_get_assign|].
    split; [intros k Hk; now apply obj_get_assign_other | apply obj_assign_keys_once].
Qed.

Lemma sendResponseLog_marks_headers_witness :
  let browser :=
      {| host_isNodejs := false; currentTime := "12:00:00"; HTTPStatusCodes := fun _ => None;
         has_groupCollapsed := true; has_groupEnd := true |} in
  let item :=
      {| MockItem.key := Some "/a-get"; MockItem.url := JString "/a";
         MockItem.method := JString "get"; MockItem.body := JString "ok";
         MockItem.delay := Some 0%Z; MockItem.status := Some 200%Z;
         MockItem.header := Some [("x-powered-by", "me"); ("content-type", "text/plain")];
         MockItem.times := Some Infinity; MockItem.disable := JString "no" |} in
  let req := {| req_url := "/a"; req_method := JString "get" |} in
  sendResponseLog browser (registry []) 3 (JString "ok") req item = []
  /\ exists summary line headers st txt,
       sendResponseLog browser (Mocker.enableLog (registry [])) 3 (JString "ok") req item
       = [GroupCollapsed summary;
          Log [LString "Request: "; LRequest req];
          Log [LString "Response: "; LResponse (JString "ok") 3 headers st txt];
          Log line;
          GroupEnd]
       /\ headers = [("x-powered-by", "http-request-mock"); ("content-type", "text/plain")]
       /\ obj_get headers "x-powered-by" = Some "http-request-mock"
       /\ obj_get headers "content-type" = Some "text/plain"
       /\ length (List.filter (fun e => String.eqb (fst e) "x-powered-by") headers) = 1%nat.
Proof.
  intros browser item req. split.
  - apply (proj1 (sendResponseLog_marks_headers browser (registry []) 3 (JString "ok") req item)).
    reflexivity.
  - destruct (proj2 (sendResponseLog_marks_headers browser (Mocker.enableLog (registry [])) 3
                       (JString "ok") req item) eq_refl)
      as (summary & line & headers & st & txt & Hout & Hmark & Hother & Honce).
    exists summary, line, headers, st, txt.
    split; [exact Hout|].
    split; [cbn in Hout; inversion Hout; reflexivity|].
    split; [exact Hmark|].
    split; [rewrite (Hother "content-type"); [reflexivity | discriminate]|].
    apply Honce. cbn. constructor; [intros [H|[]]; discriminate H|].
    constructor; [intros []|constructor].
Defined.

(** * The command line tool *)

(** ** Strings *)

Lemma append_cons (x : ascii) (a b : string) : String x a ++ b = String x (a ++ b).
Proof. reflexivity. Qed.

Lemma append_nil (b : string) : "" ++ b = b.
Proof. reflexivity. Qed.

Lemma append_assoc (a b c : string) : (a ++ b) ++ c = a ++ (b ++ c).
Proof.
  induction a as [|x a IH]; [reflexivity|]. rewrite !append_cons. now f_equal.
Qed.

Lemma append_empty_r (a : string) : a ++ "" = a.
Proof.
  induction a as [|x a IH]; [reflexivity|]. rewrite append_cons. now f_equal.
Qed.

Lemma split_nonempty (c : ascii) (s : string) : split c s <> [].
Proof.
  destruct s as [|a t]; simpl; [discriminate|].
  destruct (Ascii.eqb a c); [discriminate|]. destruct (split c t); discriminate.
Qed.

Lemma split_without (c : ascii) (s : string) :
  all_chars (fun a => negb (Ascii.eqb a c)) s = true -> split c s = [s].
Proof.
  induction s as [|a t IH]; simpl; [reflexivity|].
  intros H. apply andb_true_iff in H as [Ha Ht]. apply negb_true_iff in Ha.
  now rewrite Ha, (IH Ht).
Qed.

Lemma split_first (c : ascii) (first rest : string) :
  all_chars (fun a => negb (Ascii.eqb a c)) first = true ->
  split c (first ++ String c rest) = first :: split c rest.
Proof.
  induction first as [|a t IH]; rewrite ?append_nil, ?append_cons; simpl.
  - intros _. now rewrite Ascii.eqb_refl.
  - intros H. apply andb_true_iff in H as [Ha Ht]. apply negb_true_iff in Ha.
    now rewrite Ha, (IH Ht).
Qed.

Lemma join_cons (c : ascii) (p : string) (rest : list string) :
  rest <> [] -> join c (p :: rest) = p ++ String c (join c rest).
Proof. destruct rest; [contradiction | reflexivity]. Qed.

Lemma join_split (c : ascii) (s : string) : join c (split c s) = s.
Proof.
  induction s as [|a t IH]; [reflexivity|]. simpl.
  destruct (Ascii.eqb a c) eqn:E.
  - apply Ascii.eqb_eq in E. subst a.
    rewrite join_cons by apply split_nonempty. now rewrite IH.
  - destruct (split c t) as [|h r] eqn:Es; [now destruct (split_nonempty c t)|].
    destruct r as [|h' r'].
    + simpl in *. now rewrite IH.
    + change (join c (String a h :: h' :: r')) with (String a (h ++ String c (join c (h' :: r')))).
      now rewrite <- IH.
Qed.

Lemma all_chars_weaken (p q : ascii -> bool) (s : string) :
  (forall a, p a = true -> q a = true) -> all_chars p s = true -> all_chars q s = true.
Proof.
  intros Hpq. induction s as [|a t IH]; simpl; [reflexivity|].
  intros H. apply andb_true_iff in H as [Ha Ht]. now rewrite (Hpq a Ha), (IH Ht).
Qed.

Lemma span_spec (p : ascii -> bool) (s h r : string) :
  span p s = (h, r) ->
  s = h ++ r /\ all_chars p h = true
  /\ match r with
     | EmptyString => True
     | String a _ => p a = false
     end.
Proof.
  revert h r. induction s as [|a t IH]; simpl; intros h r H.
  - injection H as <- <-. now repeat split.
  - destruct (p a) eqn:Ea.
    + destruct (span p t) as [h' r'] eqn:Es. injection H as <- <-.
      destruct (IH h' r' eq_refl) as (-> & Hh & Hr). rewrite append_cons. simpl.
      rewrite Ea. now repeat split.
    + injection H as <- <-. now repeat split.
Qed.

Lemma span_word_run (p : ascii -> bool) (h : string) (a : ascii) (t : string) :
  all_chars p h = true -> p a = false -> span p (h ++ String a t) = (h, String a t).
Proof.
  intros Hh Ha. induction h as [|x h IH]; rewrite ?append_nil, ?append_cons; simpl.
  - now rewrite Ha.
  - simpl in Hh. apply andb_true_iff in Hh as [Hx Hh]. now rewrite Hx, (IH Hh).
Qed.

(** The model of [/^\w+=\w+$/] accepts exactly [name=value] with two
    non-empty runs of word characters. *)
Lemma environment_test_spec (s : string) :
  Cli.environment_test s = true
  <-> exists n v, s = n ++ "=" ++ v /\ n <> "" /\ v <> ""
        /\ all_chars is_word n = true /\ all_chars is_word v = true.
Proof.
  unfold Cli.environment_test. split.
  - destruct (span is_word s) as [n r] eqn:Es.
    apply span_spec in Es as (-> & Hn & _).
    intros H. apply andb_true_iff in H as [Hne H].
    destruct r as [|c v]; [discriminate|].
    apply andb_true_iff in H as [H Hv]. apply andb_true_iff in H as [Hc Hve].
    apply Ascii.eqb_eq in Hc. subst c.
    exists n, v. repeat split; try assumption.
    + apply negb_true_iff, String.eqb_neq in Hne. exact Hne.
    + apply negb_true_iff, String.eqb_neq in Hve. exact Hve.
  - intros (n & v & -> & Hn & Hv & Hwn & Hwv).
    change (n ++ "=" ++ v) with (n ++ String "="%char v).
    rewrite (span_word_run is_word n "="%char v Hwn eq_refl).
    apply String.eqb_neq in Hn, Hv. now rewrite Hn, Hv, Ascii.eqb_refl, Hwv.
Qed.

(** ** main and proxy *)

Lemma never_matched_and_marked (v : Program.OptValue) :
  Cli.is_string v "matched" && Cli.is_string v "marked" = false.
Proof.
  destruct v as [| |s]; try reflexivity. simpl.
  destruct (String.eqb s "matched") eqn:E; [|reflexivity].
  apply String.eqb_eq in E. now subst s.
Qed.

(** X12. [main] never hands over to [proxy], and [proxy] never starts the
    proxy server, whatever the options are: both test that [program.proxy] is
    [matched] and [marked] at once.  [main] shows the help exactly when none of
    [init], [inject], [watch] and [proto] is set. *)
Theorem main_never_runs_proxy (resolve_directory : Program.OptValue -> string)
    (program : Program.t) :
  Cli.main program <> Cli.RunProxy
  /\ Cli.proxy resolve_directory program = []
  /\ (Cli.main program = Cli.Help
      <-> Cli.truthy (Program.init program) = false
          /\ Cli.truthy (Program.inject program) = false
          /\ Cli.truthy (Program.watch program) = false
          /\ Cli.truthy (Program.proto program) = false).
Proof.
  unfold Cli.main, Cli.proxy. rewrite never_matched_and_marked.
  destruct (Cli.truthy (Program.init program)), (Cli.truthy (Program.inject program)),
    (Cli.truthy (Program.watch program)), (Cli.truthy (Program.proto program));
    (split; [discriminate|]); (split; [reflexivity|]);
    (split; [try discriminate; now repeat split | intros (? & ? & ? & ?); try discriminate; reflexivity]).
Qed.

Lemma main_never_runs_proxy_witness :
  let program :=
      {| Program.directory := Program.Arg "mock";
         Program.environment := Program.Arg "NODE_ENV=development";
         Program.init := Program.Absent; Program.watch := Program.Absent;
         Program.inject := Program.Absent; Program.type := Program.Arg "cjs";
         Program.proxy := Program.Arg "matched"; Program.proto := Program.Absent |} in
  Cli.main program = Cli.Help
  /\ Cli.proxy (fun _ => "/app/mock") program = []
  /\ Cli.watch_server (fun _ => "/app/mock") program <> [].
Proof.
  intros program.
  destruct (main_never_runs_proxy (fun _ => "/app/mock") program) as (_ & Hproxy & Hhelp).
  split; [apply Hhelp; now repeat split|]. split; [exact Hproxy | discriminate].
Defined.

(** ** program.environment *)

Lemma word_is_not_equals (a : ascii) :
  is_word a = true -> negb (Ascii.eqb a "="%char) = true.
Proof.
  intros H. destruct (Ascii.eqb a "="%char) eqn:E; [|reflexivity].
  apply Ascii.eqb_eq in E. subst a. discriminate H.
Qed.

(** X13. After the constructor, [program.environment] is the empty string or
    the option as given, of the form [name=value] with two non-empty runs of
    word characters; [webpack.environment] is then [null] or the two-element
    array of name and value, and the [split] never raises. *)
Theorem environment_is_a_pair (program : Program.t) :
  let env := Cli.constructor_environment program in
  (env = Program.Arg "" /\ Cli.webpack_environment env = Normal None)
  \/ (exists n v,
        env = Program.Arg (n ++ "=" ++ v)
        /\ Program.environment program = env
        /\ Cli.webpack_environment env = Normal (Some [n; v])
        /\ n <> "" /\ v <> ""
        /\ all_chars is_word n = true /\ all_chars is_word v = true).
Proof.
  unfold Cli.constructor_environment.
  destruct (Cli.truthy (Program.environment program)
            && Cli.environment_test (Cli.text (Program.environment program))) eqn:E;
    [|left; now split].
  right. apply andb_true_iff in E as [Ht He].
  apply environment_test_spec in He as (n & v & Hs & Hn & Hv & Hwn & Hwv).
  exists n, v.
  destruct (Program.environment program) as [| |s] eqn:Henv.
  - discriminate Ht.
  - exfalso. cbn [Cli.text] in Hs. destruct n as [|c n]; [contradiction|].
    rewrite append_cons in Hs. injection Hs as <- Hs.
    destruct n as [|c n]; rewrite ?append_nil, ?append_cons in Hs; [discriminate|].
    injection Hs as <- Hs.
    destruct n as [|c n]; rewrite ?append_nil, ?append_cons in Hs; [discriminate|].
    injection Hs as <- Hs.
    destruct n as [|c n]; rewrite ?append_nil, ?append_cons in Hs; [discriminate|].
    injection Hs as <- Hs.
    destruct n; rewrite ?append_nil, ?append_cons in Hs; discriminate.
  - simpl in Hs. subst s. repeat split; try assumption.
    unfold Cli.webpack_environment. rewrite Ht.
    change (n ++ "=" ++ v) with (n ++ String "="%char v).
    rewrite split_first, split_without; [reflexivity | |];
      eapply all_chars_weaken; eauto using word_is_not_equals.
Qed.

Example environment_default :
  let program (e : Program.OptValue) :=
      {| Program.directory := Program.Arg "mock"; Program.environment := e;
         Program.init := Program.Flag; Program.watch := Program.Absent;
         Program.inject := Program.Absent; Program.type := Program.Arg "cjs";
         Program.proxy := Program.Arg "none"; Program.proto := Program.Absent |} in
  Cli.webpack_environment (Cli.constructor_environment (program (Program.Arg "NODE_ENV=development")))
  = Normal (Some ["NODE_ENV"; "development"])
  /\ Cli.constructor_environment (program (Program.Arg "a=b=c")) = Program.Arg ""
  /\ Cli.constructor_environment (program Program.Flag) = Program.Arg ""
  /\ Cli.webpack_environment Program.Flag
     = Throw (TypeError "program.environment.split is not a function").
Proof. repeat split. Qed.

(** ** inject *)

Lemma replace_backslashes_clean (s : string) :
  all_chars (fun a => negb (Ascii.eqb a (ascii_of_nat 92))) (Cli.replace_backslashes s) = true.
Proof.
  induction s as [|a t IH]; simpl; [reflexivity|]. rewrite IH.
  destruct (Ascii.eqb a (ascii_of_nat 92)) eqn:E; [reflexivity|]. now rewrite E.
Qed.

Lemma replace_backslashes_id (s : string) :
  all_chars (fun a => negb (Ascii.eqb a (ascii_of_nat 92))) s = true ->
  Cli.replace_backslashes s = s.
Proof.
  induction s as [|a t IH]; simpl; [reflexivity|].
  intros H. apply andb_true_iff in H as [Ha Ht]. apply negb_true_iff in Ha.
  now rewrite Ha, (IH Ht).
Qed.

(** X14. The path [inject] puts in the import starts with a dot; putting a
    path it has produced through the same steps again gives the same path;
    and on win32 it holds no backslash. *)
Theorem inject_runtime_relative (win32 : bool) (relative : string) :
  let runtime := Cli.inject_runtime win32 relative in
  Cli.starts_with_dot runtime = true
  /\ Cli.inject_runtime win32 runtime = runtime
  /\ (win32 = true ->
      all_chars (fun a => negb (Ascii.eqb a (ascii_of_nat 92))) runtime = true).
Proof.
  unfold Cli.inject_runtime.
  set (r := if win32 then Cli.replace_backslashes relative else relative).
  assert (win32 = true ->
          all_chars (fun a => negb (Ascii.eqb a (ascii_of_nat 92))) r = true) as Hclean.
  { intros ->. apply replace_backslashes_clean. }
  destruct (Cli.starts_with_dot r) eqn:E; cbn zeta.
  - split; [exact E|]. split; [|exact Hclean].
    destruct win32.
    + rewrite (replace_backslashes_id r (Hclean eq_refl)). now rewrite E.
    + fold r. now rewrite E.
  - split; [reflexivity|]. split.
    + destruct win32.
      * rewrite (replace_backslashes_id ("./" ++ r)); [reflexivity|].
        cbn. now apply Hclean.
      * reflexivity.
    + intros H. cbn. now apply Hclean.
Qed.

Lemma inject_runtime_relative_witness :
  let backslash := String (ascii_of_nat 92) EmptyString in
  Cli.inject_runtime true ("mock" ++ backslash ++ ".runtime.js") = "./mock/.runtime.js"
  /\ Cli.inject_runtime false "../mock/.runtime.js" = "../mock/.runtime.js"
  /\ all_chars (fun a => negb (Ascii.eqb a (ascii_of_nat 92)))
       (Cli.inject_runtime true ("mock" ++ backslash ++ ".runtime.js")) = true.
Proof.
  intros backslash. split; [reflexivity|]. split; [reflexivity|].
  apply (inject_runtime_relative true ("mock" ++ backslash ++ ".runtime.js")). reflexivity.
Defined.

Lemma contains_substring (s needle : string) :
  Cli.contains s needle = true <-> substring_of needle s.
Proof. apply indexOf_substring. Qed.

(** X15. [inject] writes its three lines in front of the entry file's
    content and refuses a second time: when the runtime path has a directory
    part, the content it writes is one it leaves alone on any later run. *)
Theorem inject_twice_refused (isCjs : bool) (dir entryContent written : string) :
  Cli.inject_write isCjs (dir ++ "/.runtime.js") entryContent = Some written ->
  written = Cli.inject_codes isCjs (dir ++ "/.runtime.js") ++ String LF entryContent
  /\ Cli.already_injected entryContent = false
  /\ (forall isCjs' runtime', Cli.inject_write isCjs' runtime' written = None).
Proof.
  unfold Cli.inject_write. destruct (Cli.already_injected entryContent) eqn:E; [discriminate|].
  intros [= <-]. split; [reflexivity|]. split; [reflexivity|].
  intros isCjs' runtime'.
  assert (Cli.already_injected
            (Cli.inject_codes isCjs (dir ++ "/.runtime.js") ++ String LF entryContent) = true)
    as ->; [|reflexivity].
  unfold Cli.already_injected. apply orb_true_iff. left. apply orb_true_iff. left.
  apply orb_true_iff. left. apply contains_substring.
  unfold Cli.inject_codes, join. destruct isCjs.
  - exists ("/* eslint-disable */" ++ String LF ("require('" ++ dir)),
      (");" ++ String LF "/* eslint-enable */" ++ String LF entryContent).
    repeat first [rewrite append_assoc | rewrite append_cons | rewrite append_nil].
    reflexivity.
  - exists ("/* eslint-disable */" ++ String LF ("import '" ++ dir)),
      (";" ++ String LF "/* eslint-enable */" ++ String LF entryContent).
    repeat first [rewrite append_assoc | rewrite append_cons | rewrite append_nil].
    reflexivity.
Qed.

Lemma inject_twice_refused_witness :
  exists written,
    Cli.inject_write true "./mock/.runtime.js" "const app = require('./app');" = Some written
    /\ Cli.inject_write false "./mock/.runtime.js" written = None.
Proof.
  destruct (Cli.inject_write true "./mock/.runtime.js" "const app = require('./app');")
    as [written|] eqn:E; [|discriminate E].
  exists written. split; [reflexivity|].
  apply (inject_twice_refused true "./mock" "const app = require('./app');" written E).
Defined.

(** ** generateProtorcFile *)

(** X16. [generateProtorcFile] never overwrites an existing file; a failure
    to make the directory ends the call with that exception and nothing
    written; a failure to read the template or to write the file is caught,
    printed as one line, and nothing is written; otherwise it writes the
    template with its first line replaced by the [faker] line and every later
    line as it is. *)
Theorem generateProtorcFile_first_line (mkdir : Completion unit) (tpl : Completion string)
    (write : string -> Completion unit) (e : JsError) (first rest : string) :
  Cli.generateProtorcFile true mkdir tpl write = Normal (None, [])
  /\ Cli.generateProtorcFile false (Throw e) tpl write = Throw e
  /\ Cli.generateProtorcFile false (Normal tt) (Throw e) write
     = Normal (None, ["Failed to generate proto config file: " ++ message e])
  /\ (all_chars (fun a => negb (Ascii.eqb a LF)) first = true ->
      (write (Cli.faker_line ++ String LF rest) = Normal tt ->
       Cli.generateProtorcFile false (Normal tt) (Normal (first ++ String LF rest)) write
       = Normal (Some (Cli.faker_line ++ String LF rest), []))
      /\ (write (Cli.faker_line ++ String LF rest) = Throw e ->
          Cli.generateProtorcFile false (Normal tt) (Normal (first ++ String LF rest)) write
          = Normal (None, ["Failed to generate proto config file: " ++ message e]))
      /\ (write Cli.faker_line = Normal tt ->
          Cli.generateProtorcFile false (Normal tt) (Normal first) write
          = Normal (Some Cli.faker_line, []))).
Proof.
  split; [reflexivity|]. split; [reflexivity|]. split; [reflexivity|].
  intros H. unfold Cli.generateProtorcFile. cbn [bind].
  rewrite (split_first LF first rest H), (split_without LF first H). cbn [Cli.splice_first].
  rewrite join_cons by apply split_nonempty. rewrite join_split. cbn [join].
  repeat split; intros ->; reflexivity.
Qed.

Lemma generateProtorcFile_first_line_witness :
  let template := "const faker = require('../plugin/faker.js').shadow;"
                  ++ String LF ("module.exports = {" ++ String LF "};") in
  let result := Cli.faker_line ++ String LF ("module.exports = {" ++ String LF "};") in
  Cli.generateProtorcFile false (Normal tt) (Normal template) (fun _ => Normal tt)
  = Normal (Some result, [])
  /\ Cli.generateProtorcFile false (Normal tt) (Normal template)
       (fun _ => Throw (Thrown "EACCES"))
     = Normal (None, ["Failed to generate proto config file: EACCES"])
  /\ Cli.generateProtorcFile false (Throw (Thrown "ENOTDIR")) (Normal template)
       (fun _ => Normal tt)
     = Throw (Thrown "ENOTDIR").
Proof.
  intros template result.
  destruct (generateProtorcFile_first_line (Throw (Thrown "ENOTDIR")) (Normal template)
              (fun _ => Normal tt) (Thrown "ENOTDIR")
              "const faker = require('../plugin/faker.js').shadow;"
              ("module.exports = {" ++ String LF "};")) as (_ & Hmk & _ & Hok).
  destruct (generateProtorcFile_first_line (Normal tt) (Normal template)
              (fun _ => Throw (Thrown "EACCES")) (Thrown "EACCES")
              "const faker = require('../plugin/faker.js').shadow;"
              ("module.exports = {" ++ String LF "};")) as (_ & _ & _ & Hbad).
  split; [exact (proj1 (Hok eq_refl) eq_refl)|].
  split; [exact (proj1 (proj2 (Hbad eq_refl)) eq_refl) | exact Hmk].
Defined.

(** ** watch *)

Lemma strip_suffix_spec (suffix s r : string) :
  strip_suffix suffix s = Some r -> s = r ++ suffix.
Proof.
  revert r. induction s as [|a t IH]; intros r.
  - destruct suffix; simpl; [now intros [= <-] | discriminate].
  - cbn [strip_suffix]. destruct (String.eqb (String a t) suffix) eqn:E.
    + apply String.eqb_eq in E. now intros [= <-].
    + destruct (strip_suffix suffix t) as [r'|]; [|discriminate].
      intros [= <-]. rewrite append_cons. f_equal. now apply IH.
Qed.

Lemma strip_suffix_head (suffix : string) (a : ascii) (t r : string) :
  strip_suffix suffix (String a t) = Some r -> r = "" \/ exists r', r = String a r'.
Proof.
  cbn [strip_suffix]. destruct (String.eqb (String a t) suffix).
  - intros [= <-]. now left.
  - destruct (strip_suffix suffix t) as [r'|]; [|discriminate].
    intros [= <-]. right. now exists r'.
Qed.

Lemma watched_name_shape (filename : string) :
  Cli.watched_name filename = true ->
  exists a stem, filename = String a stem ++ ".js" /\ is_word a = true.
Proof.
  unfold Cli.watched_name.
  destruct (strip_suffix ".js" filename) as [[|a stem]|] eqn:E; try discriminate.
  intros H. apply andb_true_iff in H as [Ha _].
  exists a, stem. split; [now apply strip_suffix_spec | exact Ha].
Qed.

(** X17. The watcher callback leaves its state alone for [addDir] and
    [error] events, for a file whose base name starts with a dot, as
    [.runtime.js] does, and for a file whose base name is not empty and does
    not end in [.js]; and [pathsSet] never holds a path twice. *)
Theorem watcher_ignores (basename : string -> string) (st : Cli.WatchState)
    (event filePath : string) :
  (event = "addDir" \/ event = "error" -> Cli.on_all basename st event filePath = st)
  /\ (forall rest, basename filePath = String "."%char rest ->
        Cli.on_all basename st event filePath = st)
  /\ (basename filePath <> "" -> (forall stem, basename filePath <> stem ++ ".js") ->
      Cli.on_all basename st event filePath = st)
  /\ (List.NoDup (Cli.pathsSet st) ->
      List.NoDup (Cli.pathsSet (Cli.on_all basename st event filePath))).
Proof.
  unfold Cli.on_all. split; [|split; [|split]].
  - intros [-> | ->]; reflexivity.
  - intros rest Hb. destruct (_ || _); [reflexivity|]. rewrite Hb.
    destruct (Cli.watched_name (String "."%char rest)) eqn:E; [|reflexivity].
    apply watched_name_shape in E as (a & stem & Hs & Ha).
    rewrite append_cons in Hs. injection Hs as <- _. discriminate Ha.
  - intros Hne Hjs. destruct (_ || _); [reflexivity|].
    apply String.eqb_neq in Hne. rewrite Hne.
    destruct (Cli.watched_name (basename filePath)) eqn:E; [|reflexivity].
    apply watched_name_shape in E as (a & stem & Hs & _). now destruct (Hjs (String a stem)).
  - intros Hnd. destruct (_ || _); [exact Hnd|]. destruct (_ && _); [exact Hnd|].
    destruct (existsb (String.eqb filePath) (Cli.pathsSet st)) eqn:E; [exact Hnd|].
    cbn [Cli.pathsSet]. apply NoDup_ListNoDup, NoDup_app. repeat split.
    + now apply NoDup_ListNoDup.
    + intros x Hx Hin. apply list_elem_of_In in Hx. apply list_elem_of_In in Hin.
      destruct Hin as [<-|[]].
      assert (existsb (String.eqb filePath) (Cli.pathsSet st) = true) as Ht.
      { apply existsb_exists. exists filePath. split; [exact Hx | apply String.eqb_refl]. }
      congruence.
    + apply NoDup_ListNoDup. constructor; [intros [] | constructor].
Qed.

Lemma watcher_ignores_witness :
  let basename (p : string) :=
      if String.eqb p "/app/mock/.runtime.js" then ".runtime.js"
      else if String.eqb p "/app/mock/users.js" then "users.js"
      else "notes.md" in
  let st := {| Cli.pathsSet := ["/app/mock/users.js"]; Cli.timer := true |} in
  Cli.on_all basename st "addDir" "/app/mock/users.js" = st
  /\ Cli.on_all basename st "change" "/app/mock/.runtime.js" = st
  /\ Cli.on_all basename st "add" "/app/mock/notes.md" = st
  /\ List.NoDup (Cli.pathsSet (Cli.on_all basename st "change" "/app/mock/users.js")).
Proof.
  intros basename st. split; [|split; [|split]].
  - apply (proj1 (watcher_ignores basename st "addDir" "/app/mock/users.js")). now left.
  - apply (proj1 (proj2 (watcher_ignores basename st "change" "/app/mock/.runtime.js"))
             "runtime.js").
    reflexivity.
  - apply (proj1 (proj2 (proj2 (watcher_ignores basename st "add" "/app/mock/notes.md")))).
    + discriminate.
    + intros stem H. cbn in H. clear -H.
      assert (strip_suffix ".js" "notes.md" = None) as Hn by reflexivity.
      assert (forall s r, s = r ++ ".js" -> strip_suffix ".js" s <> None) as Hs.
      { intros s r ->. clear. induction r as [|a r IH]; [discriminate|].
        rewrite append_cons. cbn [strip_suffix].
        destruct (String.eqb _ _); [discriminate|].
        destruct (strip_suffix ".js" (r ++ ".js")); [discriminate | contradiction]. }
      exact (Hs _ _ H Hn).
  - apply (proj2 (proj2 (proj2 (watcher_ignores basename st "change" "/app/mock/users.js")))).
    constructor; [intros [] | constructor].
Defined.

(** Without a directory part the path stays [.runtime.js], and the content
    written with it is not recognised on a later run. *)
Example inject_without_directory :
  Cli.inject_runtime false ".runtime.js" = ".runtime.js"
  /\ exists written,
       Cli.inject_write true ".runtime.js" "start();" = Some written
       /\ Cli.already_injected written = false.
Proof. split; [reflexivity|]. eexists. split; reflexivity. Qed.

(** Array-index names are enumerated first, in numeric order: a new one goes
    in front of the names it comes before. *)
Example array_index_keys_come_first :
  let r := rule (JString "/a") "get" 200 in
  array_index "7" = Some 7%N
  /\ array_index "07" = None
  /\ array_index "4294967295" = None
  /\ array_index "/a-get" = None
  /\ set_property [("/a-get", r)] "7" r = [("7", r); ("/a-get", r)]
  /\ set_property [("2", r); ("10", r); ("/a-get", r)] "7" r
     = [("2", r); ("7", r); ("10", r); ("/a-get", r)]
  /\ set_property [("2", r); ("/a-get", r)] "/b-get" r
     = [("2", r); ("/a-get", r); ("/b-get", r)].
Proof. repeat split. Qed.
